(** * Claim resubmission pipeline (src/main.py): embedding and properties

    The pipeline reads claim records from two sources, normalises them to
    one record shape, decides for each claim whether it may be resubmitted
    and derives a recommendation.  This file embeds [ClaimProcessor] as
    functions in a state-and-exception monad over the processor object and
    proves the properties the specification states about it.

    Conventions of the embedding.
    - A Python [str] is a [string] whose characters are code points below
      256; [lower], [strip] and [in] follow CPython on that range.
    - Values of dynamic type (raw cells, the two optional claim fields)
      are [pyval]s: [None], booleans, integers, the float [nan] that
      pandas uses for a missing cell, and text.
    - A raised exception is an [outcome]; the state reached at the raise
      is kept, as a caller that catches the exception would observe it.
    - [logger] calls append structured events to a log. *)

From Stdlib Require Import ZArith Ascii DecimalString Lia.
From stdpp Require Import gmap strings list fin_maps.

Local Open Scope Z_scope.

(** ** Text *)

Module Str.

(** [str.lower] on one code point: A-Z and the Latin-1 capitals
    (U+00C0..U+00DE without the multiplication sign U+00D7). *)
Definition lower_char (c : ascii) : ascii :=
  let n := N_of_ascii c in
  if ((65 <=? n) && (n <=? 90)
      || (192 <=? n) && (n <=? 222) && negb (n =? 215))%N
  then ascii_of_N (n + 32) else c.

Fixpoint lower (s : string) : string :=
  match s with
  | EmptyString => EmptyString
  | String c r => String (lower_char c) (lower r)
  end.

(** [str.isspace] below 256: TAB..CR, FS..US, space, NEL and NBSP. *)
Definition isspace (c : ascii) : bool :=
  let n := N_of_ascii c in
  ((9 <=? n) && (n <=? 13) || (28 <=? n) && (n <=? 32)
   || (n =? 133) || (n =? 160))%N.

Fixpoint lstrip (s : string) : string :=
  match s with
  | EmptyString => EmptyString
  | String c r => if isspace c then lstrip r else s
  end.

Fixpoint rstrip (s : string) : string :=
  match s with
  | EmptyString => EmptyString
  | String c r =>
      match rstrip r with
      | EmptyString => if isspace c then EmptyString else String c EmptyString
      | r' => String c r'
      end
  end.

(** [s.strip()] *)
Definition strip (s : string) : string := rstrip (lstrip s).

(** [s] without the prefix [p], when it starts with [p]. *)
Fixpoint strip_prefix (p s : string) : option string :=
  match p, s with
  | EmptyString, _ => Some s
  | String a p', String b s' =>
      if Ascii.eqb a b then strip_prefix p' s' else None
  | String _ _, EmptyString => None
  end.

(** [s.startswith(p)] *)
Definition starts_with (p s : string) : bool :=
  match strip_prefix p s with Some _ => true | None => false end.

(** [sub in s] *)
Fixpoint contains (sub s : string) : bool :=
  starts_with sub s
  || match s with
     | EmptyString => false
     | String _ r => contains sub r
     end.

(** [s.replace(old, new)] for a one-character [old]. *)
Fixpoint replace (old : ascii) (new : string) (s : string) : string :=
  match s with
  | EmptyString => EmptyString
  | String c r =>
      if Ascii.eqb c old then new +:+ replace old new r
      else String c (replace old new r)
  end.

(** [s[i:j]] *)
Definition slice (i j : nat) (s : string) : string :=
  String.substring i (j - i) s.

(** [s[i:]] *)
Fixpoint drop (i : nat) (s : string) : string :=
  match i, s with
  | O, _ => s
  | S i', String _ r => drop i' r
  | S _, EmptyString => EmptyString
  end.

(** [s.find(c)]: the index of the first [c], if any. *)
Fixpoint find (c : ascii) (s : string) : option nat :=
  match s with
  | EmptyString => None
  | String a r => if Ascii.eqb a c then Some O else S <$> find c r
  end.

(** The value of an ASCII digit (code points 48 to 57). *)
Definition digit (c : ascii) : option Z :=
  let n := N_of_ascii c in
  if ((48 <=? n) && (n <=? 57))%N then Some (Z.of_N n - 48) else None.

Definition is_digit (c : ascii) : bool :=
  match digit c with Some _ => true | None => false end.

(** The value of a run of decimal digits read left to right. *)
Fixpoint digits_acc (acc : Z) (s : string) : option Z :=
  match s with
  | EmptyString => Some acc
  | String c r =>
      match digit c with
      | Some d => digits_acc (10 * acc + d) r
      | None => None
      end
  end.

(** [str(n)] for an integer [n]. *)
Definition of_Z (n : Z) : string := NilZero.string_of_int (Z.to_int n).

Definition digit_char (d : Z) : ascii :=
  match d with
  | 0 => "0" | 1 => "1" | 2 => "2" | 3 => "3" | 4 => "4"
  | 5 => "5" | 6 => "6" | 7 => "7" | 8 => "8" | _ => "9"
  end%char.

(** [f"{n:02d}"] and [f"{n:04d}"] for [n] of at most two and four digits. *)
Definition pad2 (n : Z) : string :=
  String (digit_char (n / 10)) (String (digit_char (n mod 10)) "").

Definition pad4 (n : Z) : string :=
  String (digit_char (n / 1000)) (String (digit_char (n / 100 mod 10))
    (String (digit_char (n / 10 mod 10)) (String (digit_char (n mod 10)) ""))).

(** The date and the time as [isoformat()] writes them. *)
Definition iso_date (y m d : Z) : string :=
  pad4 y +:+ "-" +:+ pad2 m +:+ "-" +:+ pad2 d.

Definition iso_time (h mi s : Z) : string :=
  pad2 h +:+ ":" +:+ pad2 mi +:+ ":" +:+ pad2 s.

(** Every character of [s] satisfies [P]. *)
Fixpoint all_chars (P : ascii → bool) (s : string) : bool :=
  match s with
  | EmptyString => true
  | String c r => P c && all_chars P r
  end.

End Str.

(** ** Dynamically typed values *)

Inductive pyval :=
| PyNone
| PyBool (b : bool)
| PyInt (n : Z)
| PyNaN
| PyStr (s : string).

(** [bool(v)], as [if v] and [not v] use it; [nan] is a non-zero float. *)
Definition truthy (v : pyval) : bool :=
  match v with
  | PyNone => false
  | PyBool b => b
  | PyInt n => negb (n =? 0)
  | PyNaN => true
  | PyStr s => negb (String.eqb s "")
  end.

(** [str(v)] *)
Definition py_str (v : pyval) : string :=
  match v with
  | PyNone => "None"
  | PyBool true => "True"
  | PyBool false => "False"
  | PyInt n => Str.of_Z n
  | PyNaN => "nan"
  | PyStr s => s
  end.

(** [v == s] for a text literal [s]. *)
Definition py_eq_str (v : pyval) (s : string) : bool :=
  match v with
  | PyStr t => String.eqb t s
  | _ => false
  end.

(** [pd.isna(v)] on a scalar. *)
Definition pd_isna (v : pyval) : bool :=
  match v with
  | PyNone | PyNaN => true
  | _ => false
  end.

(** [a or b] *)
Definition py_or (a b : pyval) : pyval := if truthy a then a else b.

(** ** Exceptions *)

Inductive exn :=
| KeyError (key : string)
| AttributeError
| TypeError
| ValueError.

Inductive outcome (A : Type) :=
| Ok (a : A)
| Raise (e : exn).
Arguments Ok {A} a.
Arguments Raise {A} e.

Definition obind {A B} (m : outcome A) (k : A → outcome B) : outcome B :=
  match m with
  | Ok a => k a
  | Raise e => Raise e
  end.

Notation "x <-? m ; k" := (obind m (fun x => k))
  (at level 20, m at level 100, k at level 200, only parsing).
Notation "' p <-? m ; k" := (obind m (fun x => match x with p => k end))
  (at level 20, p pattern, m at level 100, k at level 200, only parsing).

(** Method and operator dispatch on a dynamic value: text has the method,
    every other modelled type raises. *)
Definition py_lower (v : pyval) : outcome string :=
  match v with
  | PyStr s => Ok (Str.lower s)
  | _ => Raise AttributeError
  end.

(** ['T' in v] and the like: membership needs an iterable. *)
Definition py_contains (sub : string) (v : pyval) : outcome bool :=
  match v with
  | PyStr s => Ok (Str.contains sub s)
  | _ => Raise TypeError
  end.

(** ** Dates (the part of Python's [datetime] the pipeline uses) *)

Module Datetime.

(** A [datetime]; [tzinfo] is the UTC offset in microseconds of an aware
    value and [None] for a naive one. *)
Record datetime := {
  year : Z; month : Z; day : Z;
  hour : Z; minute : Z; second : Z; microsecond : Z;
  tzinfo : option Z
}.

(** A normalised [timedelta]: [0 <= seconds < 86400] and
    [0 <= microseconds < 1000000]; [days] carries the sign. *)
Record timedelta := { days : Z; seconds : Z; microseconds : Z }.

Definition _is_leap (y : Z) : bool :=
  (y mod 4 =? 0) && (negb (y mod 100 =? 0) || (y mod 400 =? 0)).

Definition _days_before_year (year : Z) : Z :=
  let y := year - 1 in
  y * 365 + y / 4 - y / 100 + y / 400.

Definition _DAYS_IN_MONTH (m : Z) : Z :=
  match m with
  | 1 => 31 | 2 => 28 | 3 => 31 | 4 => 30 | 5 => 31 | 6 => 30
  | 7 => 31 | 8 => 31 | 9 => 30 | 10 => 31 | 11 => 30 | 12 => 31
  | _ => -1
  end.

Definition _DAYS_BEFORE_MONTH (m : Z) : Z :=
  match m with
  | 1 => 0 | 2 => 31 | 3 => 59 | 4 => 90 | 5 => 120 | 6 => 151
  | 7 => 181 | 8 => 212 | 9 => 243 | 10 => 273 | 11 => 304 | 12 => 334
  | _ => -1
  end.

Definition _days_in_month (y m : Z) : Z :=
  if (m =? 2) && _is_leap y then 29 else _DAYS_IN_MONTH m.

Definition _days_before_month (y m : Z) : Z :=
  _DAYS_BEFORE_MONTH m + (if (2 <? m) && _is_leap y then 1 else 0).

Definition _ymd2ord (y m d : Z) : Z :=
  _days_before_year y + _days_before_month y m + d.

Definition toordinal (t : datetime) : Z := _ymd2ord (year t) (month t) (day t).

(** The field checks of the constructor: [ValueError] outside the ranges. *)
Definition _check_date_fields (y m d : Z) : bool :=
  (1 <=? y) && (y <=? 9999) && (1 <=? m) && (m <=? 12)
  && (1 <=? d) && (d <=? _days_in_month y m).

Definition _check_time_fields (h mi s us : Z) : bool :=
  (0 <=? h) && (h <=? 23) && (0 <=? mi) && (mi <=? 59)
  && (0 <=? s) && (s <=? 59) && (0 <=? us) && (us <=? 999999).

(** [datetime(y, m, d, h, mi, s, us, tzinfo)]; [None] is the [ValueError]
    of a field out of range. *)
Definition make (y m d h mi s us : Z) (tz : option Z) : option datetime :=
  if _check_date_fields y m d && _check_time_fields h mi s us
  then Some {| year := y; month := m; day := d; hour := h; minute := mi;
               second := s; microsecond := us; tzinfo := tz |}
  else None.

Definition us_per_day : Z := 86400 * 1000000.

(** [timedelta(days, seconds, microseconds)] with integer arguments. *)
Definition make_delta (d s us : Z) : timedelta :=
  let total := (d * 86400 + s) * 1000000 + us in
  let rest := total mod us_per_day in
  {| days := total / us_per_day;
     seconds := rest / 1000000;
     microseconds := rest mod 1000000 |}.

(** [a - b] for two datetimes. *)
Definition sub (a b : datetime) : outcome timedelta :=
  let days1 := toordinal a in
  let days2 := toordinal b in
  let secs1 := second a + minute a * 60 + hour a * 3600 in
  let secs2 := second b + minute b * 60 + hour b * 3600 in
  match tzinfo a, tzinfo b with
  | None, None =>
      Ok (make_delta (days1 - days2) (secs1 - secs2)
                     (microsecond a - microsecond b))
  | Some myoff, Some otoff =>
      Ok (make_delta (days1 - days2) (secs1 - secs2)
                     (microsecond a - microsecond b + otoff - myoff))
  | _, _ => Raise TypeError
  end.

(** *** [datetime.strptime(s, '%Y-%m-%d')]

    The format compiles to the regular expression
    [(\d\d\d\d)-(1[0-2]|0[1-9]|[1-9])-(3[0-1]|[1-2]\d|0[1-9]|[1-9]| [1-9])],
    matched at the start of the text; the whole text must be consumed and
    the three numbers must form a date. *)

(** The texts the month group [1[0-2]|0[1-9]|[1-9]] matches, in the order
    the alternatives are tried, with their values. *)
Definition month_texts : list (string * Z) :=
  ((λ n, (Str.pad2 n, n)) <$> seqZ 10 3)
  ++ ((λ n, (Str.pad2 n, n)) <$> seqZ 1 9)
  ++ ((λ n, (Str.of_Z n, n)) <$> seqZ 1 9).

(** The same for the day group [3[0-1]|[1-2]\d|0[1-9]|[1-9]| [1-9]]. *)
Definition day_texts : list (string * Z) :=
  ((λ n, (Str.pad2 n, n)) <$> seqZ 30 2)
  ++ ((λ n, (Str.pad2 n, n)) <$> seqZ 10 20)
  ++ ((λ n, (Str.pad2 n, n)) <$> seqZ 1 9)
  ++ ((λ n, (Str.of_Z n, n)) <$> seqZ 1 9)
  ++ ((λ n, (" " +:+ Str.of_Z n, n)) <$> seqZ 1 9).

(** The ways a group matches at the start of [s], in order: the value and
    the text left. *)
Definition alternatives (texts : list (string * Z)) (s : string)
  : list (Z * string) :=
  omap (λ '(txt, v), (λ r, (v, r)) <$> Str.strip_prefix txt s) texts.

Definition match_month (s : string) : list (Z * string) :=
  alternatives month_texts s.

(** The day group ends the expression: its first match is taken. *)
Definition match_day (s : string) : option (Z * string) :=
  head (alternatives day_texts s).

(** The first month alternative after which ["-"] and a day match. *)
Fixpoint first_month_day (ms : list (Z * string)) : option (Z * Z * string) :=
  match ms with
  | [] => None
  | (m, r) :: ms' =>
      match Str.strip_prefix "-" r ≫= match_day with
      | Some (d, rest) => Some (m, d, rest)
      | None => first_month_day ms'
      end
  end.

(** The matching and conversion of [strptime]; [None] is its
    [ValueError]. *)
Definition strptime_ymd_match (s : string) : option datetime :=
  match s with
  | String y1 (String y2 (String y3 (String y4 (String sep r)))) =>
      y ← Str.digits_acc 0 (String y1 (String y2 (String y3 (String y4 ""))));
      if Ascii.eqb sep "-" then
        match first_month_day (match_month r) with
        | Some (m, d, EmptyString) => make y m d 0 0 0 0 None
        | Some (_, _, String _ _) => None
        | None => None
        end
      else None
  | _ => None
  end.

(** Raise [ValueError] for [None]. *)
Definition or_ValueError {A} (o : option A) : outcome A :=
  match o with
  | Some a => Ok a
  | None => Raise ValueError
  end.

Definition strptime_ymd (s : string) : outcome datetime :=
  or_ValueError (strptime_ymd_match s).

(** *** [datetime.fromisoformat(s)]

    Modelled on the grammar that [isoformat()] emits and that every CPython
    since 3.7 reads with the same result:
    [YYYY-MM-DD[*HH[:MM[:SS[.fff[fff]]]][+HH:MM[:SS[.ffffff]]]]], where [*]
    is any one character and number fields are ASCII digits, as the C
    implementation reads them (a separator must be followed by a time).
    Text outside this grammar is rejected here; CPython 3.11 and later read
    some further ISO 8601 spellings.  In the helpers [None] is their
    [ValueError]. *)

Definition take2 (s : string) : option (Z * string) :=
  match s with
  | String a (String b r) =>
      x ← Str.digit a; y ← Str.digit b; Some (10 * x + y, r)
  | _ => None
  end.

Definition _parse_fraction (r : string) : option Z :=
  match r with
  | EmptyString => Some 0
  | String c f =>
      if Ascii.eqb c "." then
        match String.length f, Str.digits_acc 0 f with
        | 3%nat, Some v => Some (v * 1000)
        | 6%nat, Some v => Some v
        | _, _ => None
        end
      else None
  end.

Definition _parse_hh_mm_ss_ff (tstr : string) : option (Z * Z * Z * Z) :=
  '(hh, r1) ← take2 tstr;
  match r1 with
  | EmptyString => Some (hh, 0, 0, 0)
  | String c1 r1' =>
      if negb (Ascii.eqb c1 ":") then None else
      '(mm, r2) ← take2 r1';
      match r2 with
      | EmptyString => Some (hh, mm, 0, 0)
      | String c2 r2' =>
          if negb (Ascii.eqb c2 ":") then None else
          '(ss, r3) ← take2 r2';
          us ← _parse_fraction r3;
          Some (hh, mm, ss, us)
      end
  end.

Definition _parse_isoformat_time (tstr : string)
  : option (Z * Z * Z * Z * option Z) :=
  if (String.length tstr <? 2)%nat then None else
  let tz_pos :=
    match Str.find "-" tstr with
    | Some i => Some (i, -1)
    | None => (λ i, (i, 1)) <$> Str.find "+" tstr
    end in
  match tz_pos with
  | None =>
      '(h, mi, s, us) ← _parse_hh_mm_ss_ff tstr;
      Some (h, mi, s, us, None)
  | Some (i, tzsign) =>
      '(h, mi, s, us) ← _parse_hh_mm_ss_ff (Str.slice 0 i tstr);
      let tzstr := Str.drop (S i) tstr in
      let n := String.length tzstr in
      if negb ((n =? 5) || (n =? 8) || (n =? 15))%nat then None else
      '(th, tm, ts, tus) ← _parse_hh_mm_ss_ff tzstr;
      let off := tzsign * ((th * 3600 + tm * 60 + ts) * 1000000 + tus) in
      if (- us_per_day <? off) && (off <? us_per_day)
      then Some (h, mi, s, us, Some off)
      else None
  end.

Definition _parse_isoformat_date (dtstr : string) : option (Z * Z * Z) :=
  match dtstr with
  | String y1 (String y2 (String y3 (String y4 (String s1
      (String m1 (String m2 (String s2 (String d1 (String d2 "")))))))))  =>
      y ← Str.digits_acc 0 (String y1 (String y2 (String y3 (String y4 ""))));
      if negb (Ascii.eqb s1 "-") then None else
      '(m, _) ← take2 (String m1 (String m2 ""));
      if negb (Ascii.eqb s2 "-") then None else
      '(d, _) ← take2 (String d1 (String d2 ""));
      Some (y, m, d)
  | _ => None
  end.

Definition fromisoformat_parse (date_string : string) : option datetime :=
  let dstr := Str.slice 0 10 date_string in
  let tstr := Str.drop 11 date_string in
  '(y, m, d) ← _parse_isoformat_date dstr;
  '(h, mi, s, us, tz) ←
    (if (String.length date_string <=? 10)%nat then Some (0, 0, 0, 0, None)
     else _parse_isoformat_time tstr);
  make y m d h mi s us tz.

Definition fromisoformat (date_string : string) : outcome datetime :=
  or_ValueError (fromisoformat_parse date_string).

End Datetime.

Import Datetime.

(** ** Records *)

(** The canonical claim: the dict both normalisers build. *)
Record Claim := {
  claim_id : string;
  patient_id : pyval;
  procedure_code : string;
  denial_reason : pyval;
  status : string;
  submitted_at : option datetime;
  source_system : string
}.

(** An entry of [resubmission_candidates]. *)
Record Candidate := {
  cand_claim_id : string;
  resubmission_reason : pyval;
  cand_source_system : string;
  recommended_changes : string
}.

(** An entry of [excluded_claims]. *)
Record Exclusion := {
  excl_claim_id : string;
  exclusion_reason : string;
  excl_source_system : string
}.

(** [self.metrics] *)
Record Metrics := {
  total_processed : Z;
  source_alpha_count : Z;
  source_beta_count : Z;
  resubmission_candidates : Z;
  excluded_claims : Z;
  malformed_records : Z
}.

(** A raw record of the nested source: a JSON object, or any other JSON
    value found in the list. *)
Inductive json_item :=
| JObject (fields : gmap string pyval)
| JScalar (v : pyval).

(** One [logger] call. *)
Inductive log_event :=
| LogHeuristic (reason : pyval)
| LogDateFailed (date_str : pyval)
| LogMalformedCsv (row : gmap string pyval) (e : exn)
| LogMalformedJson (item : json_item) (e : exn)
| LogSourceFailed (source : string)
| LogInfo (message : string).

(** The [ClaimProcessor] object. *)
Record ClaimProcessor := {
  unified_claims : list Claim;
  metrics : Metrics;
  retryable_reasons : gset string;
  non_retryable_reasons : gset string;
  current_date : datetime
}.

(** What a run can touch: the object, the log and the two output files. *)
Record World := {
  self : ClaimProcessor;
  log : list log_event;
  candidates_file : option (list Candidate);
  excluded_file : option (list Exclusion)
}.

(** ** The monad of methods *)

Definition M (A : Type) : Type := World → outcome A * World.

Definition ret {A} (a : A) : M A := λ w, (Ok a, w).

Definition raise {A} (e : exn) : M A := λ w, (Raise e, w).

Definition bind {A B} (m : M A) (k : A → M B) : M B :=
  λ w, match m w with
       | (Ok a, w') => k a w'
       | (Raise e, w') => (Raise e, w')
       end.

Declare Scope method_scope.
Delimit Scope method_scope with method.
Notation "x <- m ; k" := (bind m (fun x => k))
  (at level 20, m at level 100, k at level 200, only parsing) : method_scope.
Notation "' p <- m ; k" := (bind m (fun x => match x with p => k end))
  (at level 20, p pattern, m at level 100, k at level 200, only parsing)
  : method_scope.
Notation "m ;; k" := (bind m (fun _ => k))
  (at level 100, k at level 200, only parsing, right associativity)
  : method_scope.
Local Open Scope method_scope.

Definition lift {A} (o : outcome A) : M A := λ w, (o, w).

(** [try: body  except <catches> as e: handler e] *)
Definition try_except {A} (body : M A) (catches : exn → bool)
    (handler : exn → M A) : M A :=
  λ w, match body w with
       | (Raise e, w') => if catches e then handler e w' else (Raise e, w')
       | r => r
       end.

Definition get_self : M ClaimProcessor := λ w, (Ok (self w), w).

Definition logger (ev : log_event) : M unit :=
  λ w, (Ok tt, {| self := self w; log := log w ++ [ev];
                  candidates_file := candidates_file w;
                  excluded_file := excluded_file w |}).

Definition set_self (p : ClaimProcessor) : M unit :=
  λ w, (Ok tt, {| self := p; log := log w;
                  candidates_file := candidates_file w;
                  excluded_file := excluded_file w |}).

Definition set_metrics (m : Metrics) (p : ClaimProcessor) : ClaimProcessor :=
  {| unified_claims := unified_claims p; metrics := m;
     retryable_reasons := retryable_reasons p;
     non_retryable_reasons := non_retryable_reasons p;
     current_date := current_date p |}.

Definition set_unified_claims (cs : list Claim) (p : ClaimProcessor)
  : ClaimProcessor :=
  {| unified_claims := cs; metrics := metrics p;
     retryable_reasons := retryable_reasons p;
     non_retryable_reasons := non_retryable_reasons p;
     current_date := current_date p |}.

(** [self.metrics[...] = ...] through a function on the counters. *)
Definition update_metrics (f : Metrics → Metrics) : M unit :=
  p <- get_self; set_self (set_metrics (f (metrics p)) p).

(** ** [ClaimProcessor] *)

Definition zero_metrics : Metrics :=
  {| total_processed := 0; source_alpha_count := 0; source_beta_count := 0;
     resubmission_candidates := 0; excluded_claims := 0;
     malformed_records := 0 |}.

(** [ClaimProcessor()] *)
Definition __init__ : ClaimProcessor :=
  {| unified_claims := [];
     metrics := zero_metrics;
     retryable_reasons :=
       {[ "missing modifier"; "incorrect npi"; "prior auth required" ]};
     non_retryable_reasons :=
       {[ "authorization expired"; "incorrect provider type" ]};
     current_date :=
       {| year := 2025; month := 7; day := 30; hour := 0; minute := 0;
          second := 0; microsecond := 0; tzinfo := None |} |}.

(** The state a program starts in: a fresh object, nothing logged or
    written. *)
Definition start : World :=
  {| self := __init__; log := []; candidates_file := None;
     excluded_file := None |}.

Definition normalize_denial_reason (reason : pyval) : M pyval :=
  if negb (truthy reason) then ret PyNone
  else
    lowered <- lift (py_lower reason);
    ret (PyStr (Str.strip lowered)).

Definition ambiguous_retryable : gmap string bool :=
  {[ "form incomplete" := true;
     "incorrect procedure" := true;
     "not billable" := false ]}.

Definition heuristic_keywords : list string :=
  ["incomplete"; "missing"; "wrong"; "error"; "typo"].

(** Lines 66-81: the body of [classify_ambiguous_denial] below its guard,
    the keyword heuristic and then the table. *)
Definition ambiguous_fallback (reason : pyval) : M bool :=
  lowered <- lift (py_lower reason);
  let reason_lower := Str.strip lowered in
  if existsb (λ keyword, Str.contains keyword reason_lower) heuristic_keywords
  then logger (LogHeuristic reason);; ret true
  else ret (default false (ambiguous_retryable !! reason_lower)).

Definition classify_ambiguous_denial (reason : pyval) : M bool :=
  if negb (truthy reason) then ret false
  else ambiguous_fallback reason.

Definition py_replace (old : ascii) (new : string) (v : pyval)
  : outcome string :=
  match v with
  | PyStr s => Ok (Str.replace old new s)
  | _ => Raise AttributeError
  end.

Definition py_strptime_ymd (v : pyval) : outcome datetime :=
  match v with
  | PyStr s => strptime_ymd s
  | _ => Raise TypeError
  end.

Definition parse_date (date_str : pyval) : M (option datetime) :=
  if negb (truthy date_str) then ret None
  else
    try_except
      (has_T <- lift (py_contains "T" date_str);
       if has_T : bool then
         spaced <- lift (py_replace "T" " " date_str);
         t <- lift (fromisoformat (Str.replace "Z" "" spaced));
         ret (Some t)
       else
         t <- lift (py_strptime_ymd date_str);
         ret (Some t))
      (λ e, match e with ValueError | TypeError => true | _ => false end)
      (λ e, logger (LogDateFailed date_str);; ret None).

(** [row.get(key)] and [item.get(key)] *)
Definition dict_get (d : gmap string pyval) (key : string) : pyval :=
  default PyNone (d !! key).

(** [row[key]] *)
Definition getitem (d : gmap string pyval) (key : string) : outcome pyval :=
  match d !! key with
  | Some v => Ok v
  | None => Raise (KeyError key)
  end.

(** [item[key]] on a value of the JSON list. *)
Definition item_getitem (item : json_item) (key : string) : outcome pyval :=
  match item with
  | JObject d => getitem d key
  | JScalar _ => Raise TypeError
  end.

(** [item.get(key)]; only a dict has the method. *)
Definition item_get (item : json_item) (key : string) : outcome pyval :=
  match item with
  | JObject d => Ok (dict_get d key)
  | JScalar _ => Raise AttributeError
  end.

Definition bump_alpha (m : Metrics) : Metrics :=
  {| total_processed := total_processed m;
     source_alpha_count := source_alpha_count m + 1;
     source_beta_count := source_beta_count m;
     resubmission_candidates := resubmission_candidates m;
     excluded_claims := excluded_claims m;
     malformed_records := malformed_records m |}.

Definition bump_beta (m : Metrics) : Metrics :=
  {| total_processed := total_processed m;
     source_alpha_count := source_alpha_count m;
     source_beta_count := source_beta_count m + 1;
     resubmission_candidates := resubmission_candidates m;
     excluded_claims := excluded_claims m;
     malformed_records := malformed_records m |}.

Definition bump_malformed (m : Metrics) : Metrics :=
  {| total_processed := total_processed m;
     source_alpha_count := source_alpha_count m;
     source_beta_count := source_beta_count m;
     resubmission_candidates := resubmission_candidates m;
     excluded_claims := excluded_claims m;
     malformed_records := malformed_records m + 1 |}.

Definition bump_candidates (m : Metrics) : Metrics :=
  {| total_processed := total_processed m;
     source_alpha_count := source_alpha_count m;
     source_beta_count := source_beta_count m;
     resubmission_candidates := resubmission_candidates m + 1;
     excluded_claims := excluded_claims m;
     malformed_records := malformed_records m |}.

Definition bump_excluded (m : Metrics) : Metrics :=
  {| total_processed := total_processed m;
     source_alpha_count := source_alpha_count m;
     source_beta_count := source_beta_count m;
     resubmission_candidates := resubmission_candidates m;
     excluded_claims := excluded_claims m + 1;
     malformed_records := malformed_records m |}.

Definition set_total (n : Z) (m : Metrics) : Metrics :=
  {| total_processed := n;
     source_alpha_count := source_alpha_count m;
     source_beta_count := source_beta_count m;
     resubmission_candidates := resubmission_candidates m;
     excluded_claims := excluded_claims m;
     malformed_records := malformed_records m |}.

(** Lines 122-140: one row of the tabular source becomes a record. *)
Definition normalize_csv_row (row : gmap string pyval) : M Claim :=
  let denial_reason := dict_get row "denial_reason" in
  let denial_reason :=
    if py_eq_str denial_reason "None" || pd_isna denial_reason
    then PyNone else denial_reason in
  let patient_id := dict_get row "patient_id" in
  let patient_id :=
    if pd_isna patient_id || py_eq_str patient_id ""
    then PyNone else patient_id in
  cid <- lift (getitem row "claim_id");
  code <- lift (getitem row "procedure_code");
  st <- lift (getitem row "status");
  date <- lift (getitem row "submitted_at");
  submitted <- parse_date (PyStr (py_str date));
  ret {| claim_id := py_str cid;
         patient_id := patient_id;
         procedure_code := py_str code;
         denial_reason := denial_reason;
         status := Str.lower (py_str st);
         submitted_at := submitted;
         source_system := "alpha" |}.

(** Lines 120-146: the loop over [df.iterrows()]. *)
Fixpoint ingest_csv_rows (rows : list (gmap string pyval))
    (records : list Claim) : M (list Claim) :=
  match rows with
  | [] => ret records
  | row :: rest =>
      records' <-
        try_except
          (record <- normalize_csv_row row;
           update_metrics bump_alpha;;
           ret (records ++ [record]))
          (λ _, true)
          (λ e, logger (LogMalformedCsv row e);;
                update_metrics bump_malformed;;
                ret records);
      ingest_csv_rows rest records'
  end.

(** [ingest_csv_source]: [df] is what [pd.read_csv] returned, [None] when
    reading the file raised. *)
Definition ingest_csv_source (df : option (list (gmap string pyval)))
  : M (list Claim) :=
  try_except
    (logger (LogInfo "Processing CSV source");;
     match df with
     | None => raise ValueError
     | Some rows => ingest_csv_rows rows []
     end)
    (λ _, true)
    (λ e, logger (LogSourceFailed "CSV");; ret []).

(** Lines 205-213: one item of the nested source becomes a record. *)
Definition normalize_json_item (item : json_item) : M Claim :=
  id <- lift (item_getitem item "id");
  member <- lift (item_get item "member");
  code <- lift (item_getitem item "code");
  error_msg <- lift (item_get item "error_msg");
  st <- lift (item_getitem item "status");
  date <- lift (item_getitem item "date");
  submitted <- parse_date date;
  ret {| claim_id := py_str id;
         patient_id := member;
         procedure_code := py_str code;
         denial_reason := error_msg;
         status := Str.lower (py_str st);
         submitted_at := submitted;
         source_system := "beta" |}.

(** Lines 203-219: the loop over the items. *)
Fixpoint ingest_json_items (data : list json_item) (records : list Claim)
  : M (list Claim) :=
  match data with
  | [] => ret records
  | item :: rest =>
      records' <-
        try_except
          (record <- normalize_json_item item;
           update_metrics bump_beta;;
           ret (records ++ [record]))
          (λ _, true)
          (λ e, logger (LogMalformedJson item e);;
                update_metrics bump_malformed;;
                ret records);
      ingest_json_items rest records'
  end.

(** [ingest_json_source]: [data] is what [json.load] returned, [None] when
    reading the file raised. *)
Definition ingest_json_source (data : option (list json_item))
  : M (list Claim) :=
  try_except
    (logger (LogInfo "Processing JSON source");;
     match data with
     | None => raise ValueError
     | Some items => ingest_json_items items []
     end)
    (λ _, true)
    (λ e, logger (LogSourceFailed "JSON");; ret []).

(** [v in s] for a set of text. *)
Definition py_in_set (v : pyval) (s : gset string) : bool :=
  match v with
  | PyStr t => bool_decide (t ∈ s)
  | _ => false
  end.

(** Lines 248-270, rule 4: the denial reason must be retryable. *)
Definition denial_reason_rule (claim : Claim) : M (bool * string) :=
  denial_reason <- normalize_denial_reason (denial_reason claim);
  if negb (truthy denial_reason) then
    retryable <- classify_ambiguous_denial denial_reason;
    if retryable : bool
    then ret (true, "Null denial reason classified as retryable")
    else ret (false, "Null denial reason classified as non-retryable")
  else
    p <- get_self;
    if py_in_set denial_reason (retryable_reasons p) then
      ret (true, "Known retryable reason: '" +:+ py_str denial_reason +:+ "'")
    else if py_in_set denial_reason (non_retryable_reasons p) then
      ret (false,
           "Known non-retryable reason: '" +:+ py_str denial_reason +:+ "'")
    else
      retryable <- classify_ambiguous_denial denial_reason;
      if retryable : bool
      then ret (true, "Ambiguous reason '" +:+ py_str denial_reason
                       +:+ "' classified as retryable")
      else ret (false, "Ambiguous reason '" +:+ py_str denial_reason
                        +:+ "' classified as non-retryable").

(** [(self.current_date - claim['submitted_at']).days] *)
Definition days_old_of (p : ClaimProcessor) (submitted : datetime)
  : outcome Z :=
  delta <-? Datetime.sub (current_date p) submitted;
  Ok (days delta).

Definition is_eligible_for_resubmission (claim : Claim) : M (bool * string) :=
  (* Rule 1: Status must be denied *)
  if negb (String.eqb (status claim) "denied") then
    ret (false, "Status is '" +:+ status claim +:+ "', not denied")
  (* Rule 2: Patient ID must not be null *)
  else if negb (truthy (patient_id claim)) then
    ret (false, "Patient ID is null")
  else
    (* Rule 3: Claim must be older than 7 days *)
    match submitted_at claim with
    | None => ret (false, "Submitted date is null")
    | Some submitted =>
        p <- get_self;
        days_old <- lift (days_old_of p submitted);
        if days_old <=? 7 then
          ret (false, "Claim is only " +:+ Str.of_Z days_old
                       +:+ " days old (need >7)")
        else
          (* Rule 4: Denial reason must be retryable *)
          denial_reason_rule claim
    end.

Definition recommendations : gmap string string :=
  {[ "missing modifier" := "Add the required modifier to the procedure code";
     "incorrect npi" := "Review and correct the NPI number";
     "prior auth required" := "Obtain prior authorization before resubmission";
     "incorrect procedure" := "Review and correct the procedure code";
     "form incomplete" := "Complete all required fields and resubmit" ]}.

Definition generate_recommended_changes (claim : Claim) : M string :=
  let denial_reason := denial_reason claim in
  if negb (truthy denial_reason) then
    ret "Review claim details and resubmit with corrections"
  else
    reason_lower <- lift (py_lower denial_reason);
    ret (default ("Review and correct: " +:+ py_str denial_reason)
                 (recommendations !! reason_lower)).

(** Lines 308-326: every claim goes to one of the two lists. *)
Fixpoint route_claims (claims : list Claim)
    (resubmission_candidates : list Candidate)
    (excluded_claims : list Exclusion)
  : M (list Candidate * list Exclusion) :=
  match claims with
  | [] => ret (resubmission_candidates, excluded_claims)
  | claim :: rest =>
      '(eligible, reason) <- is_eligible_for_resubmission claim;
      if eligible : bool then
        changes <- generate_recommended_changes claim;
        let candidate :=
          {| cand_claim_id := claim_id claim;
             resubmission_reason :=
               py_or (denial_reason claim) (PyStr "Unknown");
             cand_source_system := source_system claim;
             recommended_changes := changes |} in
        update_metrics bump_candidates;;
        route_claims rest (resubmission_candidates ++ [candidate])
                     excluded_claims
      else
        let exclusion :=
          {| excl_claim_id := claim_id claim;
             exclusion_reason := reason;
             excl_source_system := source_system claim |} in
        update_metrics bump_excluded;;
        route_claims rest resubmission_candidates
                     (excluded_claims ++ [exclusion])
  end.

(** The two [json.dump] calls. *)
Definition write_candidates (cs : list Candidate) : M unit :=
  λ w, (Ok tt, {| self := self w; log := log w;
                  candidates_file := Some cs;
                  excluded_file := excluded_file w |}).

Definition write_excluded (es : list Exclusion) : M unit :=
  λ w, (Ok tt, {| self := self w; log := log w;
                  candidates_file := candidates_file w;
                  excluded_file := Some es |}).

Definition log_metrics : M unit :=
  p <- get_self;
  let m := metrics p in
  logger (LogInfo "=== PIPELINE METRICS ===");;
  logger (LogInfo ("Total claims processed: " +:+ Str.of_Z (total_processed m)));;
  logger (LogInfo ("Claims from Alpha EMR: " +:+ Str.of_Z (source_alpha_count m)));;
  logger (LogInfo ("Claims from Beta EMR: " +:+ Str.of_Z (source_beta_count m)));;
  logger (LogInfo ("Flagged for resubmission: "
                   +:+ Str.of_Z (resubmission_candidates m)));;
  logger (LogInfo ("Excluded from resubmission: "
                   +:+ Str.of_Z (excluded_claims m)));;
  logger (LogInfo ("Malformed records: " +:+ Str.of_Z (malformed_records m)));;
  logger (LogInfo "========================").

(** [process_pipeline]; the two arguments are the contents of the two
    source files as the readers return them. *)
Definition process_pipeline (df : option (list (gmap string pyval)))
    (data : option (list json_item)) : M (list Candidate) :=
  logger (LogInfo "Starting claim resubmission pipeline");;
  csv_records <- ingest_csv_source df;
  json_records <- ingest_json_source data;
  p <- get_self;
  set_self (set_unified_claims (csv_records ++ json_records) p);;
  p <- get_self;
  update_metrics (set_total (Z.of_nat (length (unified_claims p))));;
  logger (LogInfo ("Processed "
                   +:+ Str.of_Z (Z.of_nat (length (unified_claims p)))
                   +:+ " total claims"));;
  '(resubmission_candidates, excluded_claims) <-
    route_claims (unified_claims p) [] [];
  write_candidates resubmission_candidates;;
  write_excluded excluded_claims;;
  log_metrics;;
  ret resubmission_candidates.

(** The sample files the pipeline writes when a source file is missing, as
    the readers return them (lines 106-113 and 162-195). *)
Definition csv_row (claim_id patient_id procedure_code denial_reason
    submitted_at status : pyval) : gmap string pyval :=
  {[ "claim_id" := claim_id; "patient_id" := patient_id;
     "procedure_code" := procedure_code; "denial_reason" := denial_reason;
     "submitted_at" := submitted_at; "status" := status ]}.

Definition row_A123 : gmap string pyval :=
  csv_row (PyStr "A123") (PyStr "P001") (PyInt 99213)
          (PyStr "Missing modifier") (PyStr "2025-07-01") (PyStr "denied").

Definition row_A124 : gmap string pyval :=
  csv_row (PyStr "A124") (PyStr "P002") (PyInt 99214)
          (PyStr "Incorrect NPI") (PyStr "2025-07-10") (PyStr "denied").

Definition row_A125 : gmap string pyval :=
  csv_row (PyStr "A125") PyNaN (PyInt 99215)
          (PyStr "Authorization expired") (PyStr "2025-07-05") (PyStr "denied").

Definition row_A126 : gmap string pyval :=
  csv_row (PyStr "A126") (PyStr "P003") (PyInt 99381)
          (PyStr "None") (PyStr "2025-07-15") (PyStr "approved").

Definition row_A127 : gmap string pyval :=
  csv_row (PyStr "A127") (PyStr "P004") (PyInt 99401)
          (PyStr "Prior auth required") (PyStr "2025-07-20") (PyStr "denied").

Definition sample_csv : list (gmap string pyval) :=
  [row_A123; row_A124; row_A125; row_A126; row_A127].

Definition json_object (id member code error_msg date status : pyval)
  : json_item :=
  JObject {[ "id" := id; "member" := member; "code" := code;
             "error_msg" := error_msg; "date" := date; "status" := status ]}.

Definition item_B987 : json_item :=
  json_object (PyStr "B987") (PyStr "P010") (PyStr "99213")
              (PyStr "Incorrect provider type")
              (PyStr "2025-07-03T00:00:00") (PyStr "denied").

Definition item_B988 : json_item :=
  json_object (PyStr "B988") (PyStr "P011") (PyStr "99214")
              (PyStr "Missing modifier")
              (PyStr "2025-07-09T00:00:00") (PyStr "denied").

Definition item_B989 : json_item :=
  json_object (PyStr "B989") (PyStr "P012") (PyStr "99215") PyNone
              (PyStr "2025-07-10T00:00:00") (PyStr "approved").

Definition item_B990 : json_item :=
  json_object (PyStr "B990") PyNone (PyStr "99401")
              (PyStr "incorrect procedure")
              (PyStr "2025-07-01T00:00:00") (PyStr "denied").

Definition sample_json : list json_item :=
  [item_B987; item_B988; item_B989; item_B990].

(** ** Scenarios of the specification *)

Definition at_midnight (y m d : Z) : datetime :=
  {| year := y; month := m; day := d; hour := 0; minute := 0;
     second := 0; microsecond := 0; tzinfo := None |}.

Definition scenario_B : Claim :=
  {| claim_id := "A125"; patient_id := PyNone; procedure_code := "99215";
     denial_reason := PyStr "Authorization expired"; status := "denied";
     submitted_at := Some (at_midnight 2025 7 5);
     source_system := "alpha" |}.

Definition scenario_A : Claim :=
  {| claim_id := "A123"; patient_id := PyStr "P001"; procedure_code := "99213";
     denial_reason := PyStr "Missing modifier"; status := "denied";
     submitted_at := Some (at_midnight 2025 7 1);
     source_system := "alpha" |}.

Definition scenario_D : Claim :=
  {| claim_id := "A127"; patient_id := PyStr "P004"; procedure_code := "99401";
     denial_reason := PyNone; status := "denied";
     submitted_at := Some (at_midnight 2025 7 20);
     source_system := "alpha" |}.

(** A denied claim of a known patient with a retryable reason, submitted
    on the given day of July 2025. *)
Definition submitted_in_july (d : Z) : Claim :=
  {| claim_id := "A200"; patient_id := PyStr "P020"; procedure_code := "99213";
     denial_reason := PyStr "Incorrect NPI"; status := "denied";
     submitted_at := Some (at_midnight 2025 7 d);
     source_system := "alpha" |}.

(** The verdict of rule 4 on an absent reason, as lines 251-256 compute it
    from the classifier's answer. *)
Definition null_reason_verdict (retryable : bool) : bool * string :=
  if retryable
  then (true, "Null denial reason classified as retryable")
  else (false, "Null denial reason classified as non-retryable").

(** [claim] with another denial reason. *)
Definition with_denial_reason (v : pyval) (claim : Claim) : Claim :=
  {| claim_id := claim_id claim; patient_id := patient_id claim;
     procedure_code := procedure_code claim; denial_reason := v;
     status := status claim; submitted_at := submitted_at claim;
     source_system := source_system claim |}.

(** Whether one of the heuristic stems occurs in the normalised reason. *)
Definition has_keyword (reason : string) : bool :=
  existsb (λ keyword, Str.contains keyword (Str.strip (Str.lower reason)))
          heuristic_keywords.

Definition log_add (ev : log_event) (w : World) : World :=
  {| self := self w; log := log w ++ [ev];
     candidates_file := candidates_file w;
     excluded_file := excluded_file w |}.

(** The value [parse_date] returns, without the monad. *)
Definition parsed (date_str : pyval) : option datetime :=
  match date_str with
  | PyStr s =>
      if String.eqb s "" then None
      else if Str.contains "T" s
      then fromisoformat_parse (Str.replace "Z" "" (Str.replace "T" " " s))
      else strptime_ymd_match s
  | _ => None
  end.

(** The record a method call returns, if it returns one. *)
Definition returned {A} (r : outcome A * World) : option A :=
  match r.1 with
  | Ok a => Some a
  | Raise _ => None
  end.

(** The record a raw row or item normalises to, [None] when normalising
    it raises. *)
Definition csv_record (row : gmap string pyval) : option Claim :=
  returned (normalize_csv_row row start).

Definition json_record (item : json_item) : option Claim :=
  returned (normalize_json_item item start).

(** The null markers of the specification: the native markers ([None], a
    missing key, [nan]), the text "None" and the empty text. *)
Definition native_marker (v : pyval) : bool :=
  match v with
  | PyNone | PyNaN => true
  | _ => false
  end.

Definition null_marker (v : pyval) : bool :=
  match v with
  | PyNone | PyNaN => true
  | PyStr s => String.eqb s "None" || String.eqb s ""
  | _ => false
  end.

(** A record of the nested source whose two optional fields hold marker
    texts. *)
Definition marker_item : json_item :=
  json_object (PyStr "B991") (PyStr "None") (PyStr "99213") (PyStr "")
              (PyStr "2025-07-01T00:00:00") (PyStr "denied").

(** A record of the nested source with an empty id. *)
Definition empty_id_item : json_item :=
  json_object (PyStr "") (PyStr "P013") (PyStr "99213")
              (PyStr "Missing modifier")
              (PyStr "2025-07-01T00:00:00") (PyStr "denied").

(** A record of the nested source without the key "id". *)
Definition no_id_item : json_item :=
  JObject {[ "member" := PyStr "P014"; "code" := PyStr "99213";
             "error_msg" := PyStr "Missing modifier";
             "date" := PyStr "2025-07-01T00:00:00";
             "status" := PyStr "denied" ]}.

(** The counters after [n] more emitted and [k] more malformed records. *)
Definition count_alpha (n k : Z) (m : Metrics) : Metrics :=
  {| total_processed := total_processed m;
     source_alpha_count := source_alpha_count m + n;
     source_beta_count := source_beta_count m;
     resubmission_candidates := resubmission_candidates m;
     excluded_claims := excluded_claims m;
     malformed_records := malformed_records m + k |}.

Definition count_beta (n k : Z) (m : Metrics) : Metrics :=
  {| total_processed := total_processed m;
     source_alpha_count := source_alpha_count m;
     source_beta_count := source_beta_count m + n;
     resubmission_candidates := resubmission_candidates m;
     excluded_claims := excluded_claims m;
     malformed_records := malformed_records m + k |}.

(** Each counter of [m1] is at most the one of [m2]. *)
Definition metrics_le (m1 m2 : Metrics) : Prop :=
  total_processed m1 ≤ total_processed m2
  ∧ source_alpha_count m1 ≤ source_alpha_count m2
  ∧ source_beta_count m1 ≤ source_beta_count m2
  ∧ resubmission_candidates m1 ≤ resubmission_candidates m2
  ∧ excluded_claims m1 ≤ excluded_claims m2
  ∧ malformed_records m1 ≤ malformed_records m2.

(** The keys each normaliser reads with [[]]. *)
Definition alpha_required : list string :=
  ["claim_id"; "procedure_code"; "status"; "submitted_at"].

Definition beta_required : list string := ["id"; "code"; "status"; "date"].

(** The four required fields of [r] are the text of the raw values [id],
    [code] and [st] (the status in lowercase) and the tag [src]. *)
Definition populated_from (r : Claim) (id code st : pyval) (src : string)
  : Prop :=
  claim_id r = py_str id ∧ procedure_code r = py_str code
  ∧ status r = Str.lower (py_str st) ∧ source_system r = src.

Definition with_metrics (m : Metrics) (w : World) : World :=
  {| self := set_metrics m (self w); log := log w;
     candidates_file := candidates_file w;
     excluded_file := excluded_file w |}.

(** How many of the raw records normalise, and how many do not. *)
Definition emitted {A} (record : A → option Claim) (raw : list A) : Z :=
  Z.of_nat (length (omap record raw)).

Definition dropped {A} (record : A → option Claim) (raw : list A) : Z :=
  Z.of_nat (length raw) - emitted record raw.

(** The counters after routing [a] claims to the candidates and [b] to the
    exclusions. *)
Definition count_routed (a b : Z) (m : Metrics) : Metrics :=
  {| total_processed := total_processed m;
     source_alpha_count := source_alpha_count m;
     source_beta_count := source_beta_count m;
     resubmission_candidates := resubmission_candidates m + a;
     excluded_claims := excluded_claims m + b;
     malformed_records := malformed_records m |}.

(** The claims a run evaluates: the records of the two sources that
    normalise, tabular first; an unreadable source gives none. *)
Definition claims_of (df : option (list (gmap string pyval)))
    (data : option (list json_item)) : list Claim :=
  omap csv_record (default [] df) ++ omap json_record (default [] data).

(** The ids in the two output lists, candidates first. *)
Definition routed_ids (cs : list Candidate) (es : list Exclusion)
  : list string :=
  (cand_claim_id <$> cs) ++ (excl_claim_id <$> es).

(** A claim whose denial reason is text or absent and whose date is naive
    or absent. *)
Definition evaluable (c : Claim) : bool :=
  match denial_reason c with
  | PyNone | PyStr _ => true
  | _ => false
  end
  && match submitted_at c with
     | Some t => match tzinfo t with None => true | Some _ => false end
     | None => true
     end.

(** A record of the nested source whose date carries a UTC offset. *)
Definition offset_item : json_item :=
  json_object (PyStr "B992") (PyStr "P015") (PyStr "99213")
              (PyStr "Missing modifier")
              (PyStr "2025-07-01T00:00:00+05:00") (PyStr "denied").

(** [w1] differs from [w] in the log at most. *)
Definition only_logged (w w1 : World) : Prop :=
  self w1 = self w
  ∧ candidates_file w1 = candidates_file w
  ∧ excluded_file w1 = excluded_file w.

(** The object when the routing loop starts: the claims are stored, the
    sources are counted and [total_processed] is set. *)
Definition before_routing (df : option (list (gmap string pyval)))
    (data : option (list json_item)) (p : ClaimProcessor) : ClaimProcessor :=
  set_metrics
    (set_total (Z.of_nat (length (claims_of df data)))
       (count_beta (emitted json_record (default [] data))
                   (dropped json_record (default [] data))
          (count_alpha (emitted csv_record (default [] df))
                       (dropped csv_record (default [] df))
                       (metrics p))))
    (set_unified_claims (claims_of df data) p).

(** Lines 328-339: what follows the routing loop. *)
Definition finish (r : outcome (list Candidate * list Exclusion) * World)
  : outcome (list Candidate) * World :=
  match r with
  | (Ok (resubmission_candidates, excluded_claims), w1) =>
      (write_candidates resubmission_candidates;;
       write_excluded excluded_claims;;
       log_metrics;;
       ret resubmission_candidates) w1
  | (Raise e, w1) => (Raise e, w1)
  end.

(** The characters of an ISO date and time. *)
Definition date_char (c : ascii) : bool :=
  Str.is_digit c || Ascii.eqb c "-" || Ascii.eqb c ":".

(** The checks of the padded spellings, run over the whole range. *)
Definition pad2_ok (n : Z) : bool :=
  match take2 (Str.pad2 n) with
  | Some (v, EmptyString) => v =? n
  | _ => false
  end
  && Str.all_chars Str.is_digit (Str.pad2 n).

Definition pad4_ok (n : Z) : bool :=
  match Str.digits_acc 0 (Str.pad4 n) with
  | Some v => v =? n
  | None => false
  end
  && Str.all_chars Str.is_digit (Str.pad4 n).

(** The month and day parts of the text the format matches, with the first
    match of each being the value listed. *)
Definition month_day_ok (mt : string * Z) (dt : string * Z) : bool :=
  match first_month_day (match_month (mt.1 +:+ "-" +:+ dt.1)) with
  | Some (m, d, EmptyString) => (m =? mt.2) && (d =? dt.2)
  | _ => false
  end.

Definition time_char (c : ascii) : bool :=
  Str.is_digit c || Ascii.eqb c ":".

(** The characters of the texts the month and day groups match. *)
Definition ymd_char (c : ascii) : bool :=
  Str.is_digit c || Ascii.eqb c "-" || Ascii.eqb c " ".

(** The naive timestamp with the given fields. *)
Definition naive (y m d h mi s : Z) : datetime :=
  {| year := y; month := m; day := d; hour := h; minute := mi;
     second := s; microsecond := 0; tzinfo := None |}.

(** The two-digit spellings are among the texts the groups match. *)
Definition month_listed (m : Z) : bool :=
  bool_decide ((Str.pad2 m, m) ∈ month_texts).

Definition day_listed (d : Z) : bool :=
  bool_decide ((Str.pad2 d, d) ∈ day_texts).

(** A record of the nested source whose date is in another format. *)
Definition slash_date_item : json_item :=
  json_object (PyStr "B993") (PyStr "P016") (PyStr "99213")
              (PyStr "Missing modifier") (PyStr "07/01/2025") (PyStr "denied").

(** ** Further properties: definitions *)

(** The verdict of rule 4 on a reason in normal form [n] (lowercase, no
    surrounding white space), as lines 251-270 compute it with the sets of
    the processor [p]. *)
Definition text_verdict (p : ClaimProcessor) (n : string) : bool * string :=
  if String.eqb n "" then
    (false, "Null denial reason classified as non-retryable")
  else if bool_decide (n ∈ retryable_reasons p) then
    (true, "Known retryable reason: '" +:+ n +:+ "'")
  else if bool_decide (n ∈ non_retryable_reasons p) then
    (false, "Known non-retryable reason: '" +:+ n +:+ "'")
  else if existsb (λ keyword, Str.contains keyword n) heuristic_keywords
          || default false (ambiguous_retryable !! n) then
    (true, "Ambiguous reason '" +:+ n +:+ "' classified as retryable")
  else
    (false, "Ambiguous reason '" +:+ n +:+ "' classified as non-retryable").

(** A world that holds the object [p] and nothing else. *)
Definition world_of (p : ClaimProcessor) : World :=
  {| self := p; log := []; candidates_file := None; excluded_file := None |}.

(** The answer of the rule engine for [c] on the object [p]. *)
Definition verdict (p : ClaimProcessor) (c : Claim) : outcome (bool * string) :=
  (is_eligible_for_resubmission c (world_of p)).1.

(** ** Properties *)


(** *** Running methods *)

Lemma bind_ok {A B} (m : M A) (k : A → M B) w a w' :
  m w = (Ok a, w') → bind m k w = k a w'.
Proof. intros H. unfold bind. by rewrite H. Qed.

Lemma bind_raise {A B} (m : M A) (k : A → M B) w e w' :
  m w = (Raise e, w') → bind m k w = (Raise e, w').
Proof. intros H. unfold bind. by rewrite H. Qed.

Lemma eqb_denied s : s = "denied" → String.eqb s "denied" = true.
Proof. by intros ->. Qed.

(** Rules 1 to 3 on a claim that passes them: the age is computed and
    compared to 7, and rule 4 decides an older claim. *)
Lemma rule3_by_age (claim : Claim) (w : World) (submitted : datetime) (d : Z) :
  status claim = "denied" →
  truthy (patient_id claim) = true →
  submitted_at claim = Some submitted →
  days_old_of (self w) submitted = Ok d →
  is_eligible_for_resubmission claim w =
    if d <=? 7
    then (Ok (false, "Claim is only " +:+ Str.of_Z d +:+ " days old (need >7)"), w)
    else denial_reason_rule claim w.
Proof.
  intros Hst Hpid Hsub Hdays.
  unfold is_eligible_for_resubmission.
  rewrite (eqb_denied _ Hst), Hpid, Hsub. cbn.
  unfold bind, get_self, lift. rewrite Hdays.
  by destruct (d <=? 7).
Qed.

(** C1: a denied claim without a patient id is ineligible with the
    justification "Patient ID is null", whatever its date and denial reason
    are: rule 2 answers before rules 3 and 4 are looked at, and nothing is
    logged or changed. *)
Theorem patient_id_rule_fires_first (claim : Claim) (w : World) :
  status claim = "denied" →
  patient_id claim = PyNone →
  is_eligible_for_resubmission claim w = (Ok (false, "Patient ID is null"), w).
Proof.
  intros Hst Hpid. unfold is_eligible_for_resubmission.
  by rewrite (eqb_denied _ Hst), Hpid.
Qed.

Lemma patient_id_rule_fires_first_witness :
  is_eligible_for_resubmission scenario_B start
  = (Ok (false, "Patient ID is null"), start).
Proof.
  apply (patient_id_rule_fires_first scenario_B start); reflexivity.
Defined.

(** C2: the age limit of rule 3 is exclusive.  For a denied claim of a known
    patient whose date is present, an age of exactly 7 whole days makes the
    claim ineligible with a justification that quotes the age, and an age
    of 8 days passes rule 3: the verdict is then the one rule 4 gives. *)
Theorem age_boundary_is_exclusive (claim : Claim) (w : World)
    (submitted : datetime) :
  status claim = "denied" →
  truthy (patient_id claim) = true →
  submitted_at claim = Some submitted →
  (days_old_of (self w) submitted = Ok 7 →
   is_eligible_for_resubmission claim w
   = (Ok (false, "Claim is only 7 days old (need >7)"), w))
  ∧ (days_old_of (self w) submitted = Ok 8 →
     is_eligible_for_resubmission claim w = denial_reason_rule claim w).
Proof.
  intros Hst Hpid Hsub. split; intros Hd.
  - by rewrite (rule3_by_age claim w submitted 7).
  - by rewrite (rule3_by_age claim w submitted 8).
Qed.

Lemma age_boundary_is_exclusive_witness :
  is_eligible_for_resubmission (submitted_in_july 23) start
  = (Ok (false, "Claim is only 7 days old (need >7)"), start)
  ∧ is_eligible_for_resubmission (submitted_in_july 22) start
    = (Ok (true, "Known retryable reason: 'incorrect npi'"), start).
Proof.
  split.
  - apply (age_boundary_is_exclusive (submitted_in_july 23) start
             (at_midnight 2025 7 23)); reflexivity.
  - etrans.
    + apply (age_boundary_is_exclusive (submitted_in_july 22) start
               (at_midnight 2025 7 22)); reflexivity.
    + vm_compute. reflexivity.
Defined.



(** C4: in the fallback the keyword heuristic comes before the table.  A
    reason with one of the stems is retryable through the heuristic, which
    logs it, also when the table has the reason ("form incomplete"); a
    reason with none of them gets the table's answer ("incorrect procedure"
    is retryable, "not billable" is not), and false when the table has no
    entry for it. *)
Theorem heuristic_then_table (reason : string) (w : World) :
  ambiguous_fallback (PyStr reason) w
  = (if has_keyword reason
     then (Ok true, log_add (LogHeuristic (PyStr reason)) w)
     else (Ok (default false
                 (ambiguous_retryable !! Str.strip (Str.lower reason))), w))
  ∧ has_keyword "incorrect procedure" = false
  ∧ ambiguous_retryable !! "incorrect procedure" = Some true
  ∧ classify_ambiguous_denial (PyStr "incorrect procedure") w = (Ok true, w)
  ∧ classify_ambiguous_denial (PyStr "not billable") w = (Ok false, w)
  ∧ ambiguous_retryable !! "form incomplete" = Some true
  ∧ classify_ambiguous_denial (PyStr "form incomplete") w
    = (Ok true, log_add (LogHeuristic (PyStr "form incomplete")) w)
  ∧ (has_keyword reason = false →
     ambiguous_retryable !! Str.strip (Str.lower reason) = None →
     reason ≠ "" →
     classify_ambiguous_denial (PyStr reason) w = (Ok false, w)).
Proof.
  assert (Hgen : ambiguous_fallback (PyStr reason) w
    = (if has_keyword reason
       then (Ok true, log_add (LogHeuristic (PyStr reason)) w)
       else (Ok (default false
                   (ambiguous_retryable !! Str.strip (Str.lower reason))), w))).
  { unfold ambiguous_fallback, has_keyword, bind, lift, py_lower.
    by destruct (existsb _ heuristic_keywords). }
  split; [exact Hgen|].
  repeat split; try reflexivity.
  intros Hk Ht Hne. unfold classify_ambiguous_denial.
  assert (truthy (PyStr reason) = true) as ->.
  { cbn. destruct reason; [done|reflexivity]. }
  change (ambiguous_fallback (PyStr reason) w = (Ok false, w)).
  rewrite Hgen, Hk, Ht. reflexivity.
Qed.

Lemma heuristic_then_table_witness :
  classify_ambiguous_denial (PyStr "Duplicate claim") start = (Ok false, start).
Proof.
  apply (heuristic_then_table "Duplicate claim" start); (reflexivity || done).
Defined.

(** C8: scenario A.  The claim of patient P001, denied for "Missing
    modifier" and submitted on 2025-07-01, is 29 days old on 2025-07-30; it
    is eligible through the known retryable reasons and its recommended
    change is "Add the required modifier to the procedure code". *)
Theorem scenario_A_end_to_end :
  current_date (self start) = at_midnight 2025 7 30
  ∧ days_old_of (self start) (at_midnight 2025 7 1) = Ok 29
  ∧ is_eligible_for_resubmission scenario_A start
    = (Ok (true, "Known retryable reason: 'missing modifier'"), start)
  ∧ generate_recommended_changes scenario_A start
    = (Ok "Add the required modifier to the procedure code", start).
Proof. repeat split; vm_compute; reflexivity. Qed.

(** *** Normalising text *)

Section Normalise.

Local Ltac by_cases c := destruct c as [[] [] [] [] [] [] [] []]; reflexivity.

Lemma lower_char_idem c : Str.lower_char (Str.lower_char c) = Str.lower_char c.
Proof. by_cases c. Qed.

Lemma isspace_lower_char c : Str.isspace (Str.lower_char c) = Str.isspace c.
Proof. by_cases c. Qed.

Lemma lower_idem s : Str.lower (Str.lower s) = Str.lower s.
Proof.
  induction s as [|c s IH]; [done|]. cbn. by rewrite lower_char_idem, IH.
Qed.

Lemma lower_lstrip s : Str.lower (Str.lstrip s) = Str.lstrip (Str.lower s).
Proof.
  induction s as [|c s IH]; [done|]. cbn. rewrite isspace_lower_char.
  by destruct (Str.isspace c).
Qed.

Lemma lower_rstrip s : Str.lower (Str.rstrip s) = Str.rstrip (Str.lower s).
Proof.
  induction s as [|c s IH]; [done|]. cbn.
  rewrite <- IH, isspace_lower_char.
  destruct (Str.rstrip s) as [|c' r]; cbn; [|done].
  by destruct (Str.isspace c).
Qed.

Lemma lower_strip s : Str.lower (Str.strip s) = Str.strip (Str.lower s).
Proof. unfold Str.strip. by rewrite lower_rstrip, lower_lstrip. Qed.

Lemma rstrip_idem s : Str.rstrip (Str.rstrip s) = Str.rstrip s.
Proof.
  induction s as [|c s IH]; [done|]. cbn.
  destruct (Str.rstrip s) as [|c' r] eqn:E.
  - destruct (Str.isspace c) eqn:Ec; cbn; [done|]. by rewrite Ec.
  - cbn in IH |- *. by rewrite IH.
Qed.

(** Text that does not start with white space keeps its first character
    under [rstrip], so [lstrip] has nothing left to remove. *)
Lemma lstrip_rstrip_lstrip s :
  Str.lstrip (Str.rstrip (Str.lstrip s)) = Str.rstrip (Str.lstrip s).
Proof.
  induction s as [|c s IH]; [done|]. cbn.
  destruct (Str.isspace c) eqn:Ec; [exact IH|]. cbn.
  destruct (Str.rstrip s) as [|c' r]; cbn; rewrite ?Ec; cbn; by rewrite ?Ec.
Qed.

Lemma strip_idem s : Str.strip (Str.strip s) = Str.strip s.
Proof. unfold Str.strip. by rewrite lstrip_rstrip_lstrip, rstrip_idem. Qed.

(** [s.lower().strip()] is idempotent. *)
Lemma normal_form_idem s :
  Str.strip (Str.lower (Str.strip (Str.lower s))) = Str.strip (Str.lower s).
Proof. by rewrite lower_strip, lower_idem, strip_idem. Qed.

End Normalise.

Lemma truthy_PyStr s : truthy (PyStr s) = negb (String.eqb s "").
Proof. done. Qed.

(** Rule 4 reads nothing of the claim but its denial reason, and gives the
    same verdict on a reason and on its normal form. *)
Lemma denial_reason_rule_normal_form (c1 c2 : Claim) (reason : string) w :
  denial_reason c1 = PyStr reason →
  denial_reason c2 = PyStr (Str.strip (Str.lower reason)) →
  denial_reason_rule c1 w = denial_reason_rule c2 w.
Proof.
  intros H1 H2. unfold denial_reason_rule. rewrite H1, H2.
  unfold normalize_denial_reason. rewrite !truthy_PyStr.
  destruct reason as [|c r]; [reflexivity|].
  change (String.eqb (String c r) "") with false.
  set (s := String c r).
  destruct (String.eqb (Str.strip (Str.lower s)) "") eqn:E.
  - apply String.eqb_eq in E. unfold bind, lift, ret, py_lower.
    by rewrite !E.
  - unfold bind, lift, ret, py_lower.
    by rewrite normal_form_idem.
Qed.

(** C5: the verdict does not depend on the case of the reason text or on
    white space around it: a claim gets the same verdict and justification
    with a reason and with the lowercased and trimmed reason, and
    "Missing Modifier" is classified as "missing modifier" is. *)
Theorem verdict_invariant_under_normalisation (claim : Claim)
    (reason : string) (w : World) :
  is_eligible_for_resubmission (with_denial_reason (PyStr reason) claim) w
  = is_eligible_for_resubmission
      (with_denial_reason (PyStr (Str.strip (Str.lower reason))) claim) w
  ∧ denial_reason_rule (with_denial_reason (PyStr "Missing Modifier") claim) start
    = denial_reason_rule (with_denial_reason (PyStr "missing modifier") claim) start
  ∧ denial_reason_rule (with_denial_reason (PyStr "Missing Modifier") claim) start
    = (Ok (true, "Known retryable reason: 'missing modifier'"), start).
Proof.
  split; [|split; reflexivity].
  unfold is_eligible_for_resubmission. cbn [status patient_id submitted_at with_denial_reason].
  destruct (negb (String.eqb (status claim) "denied")); [done|].
  destruct (negb (truthy (patient_id claim))); [done|].
  destruct (submitted_at claim) as [submitted|]; [|done].
  unfold bind, get_self, lift.
  destruct (days_old_of (self w) submitted) as [d|e]; [|done].
  destruct (d <=? 7); [done|].
  by apply denial_reason_rule_normal_form with reason.
Qed.

(** *** The date parser never raises *)

Lemma parse_date_spec (v : pyval) (w : World) :
  parse_date v w
  = (Ok (parsed v),
     match parsed v with
     | Some _ => w
     | None => if truthy v then log_add (LogDateFailed v) w else w
     end).
Proof.
  unfold parse_date.
  destruct v as [|[]|n| |s]; try reflexivity.
  - cbn [truthy negb]. by destruct (negb (n =? 0)).
  - cbn [truthy parsed]. destruct (String.eqb s ""); [reflexivity|].
    cbn [negb]. unfold try_except, bind, lift, py_contains, py_replace,
      py_strptime_ymd, fromisoformat, strptime_ymd.
    destruct (Str.contains "T" s).
    + by destruct (fromisoformat_parse _).
    + by destruct (strptime_ymd_match s).
Qed.

Lemma parse_date_self v w : self (parse_date v w).2 = self w.
Proof.
  rewrite parse_date_spec. cbn.
  destruct (parsed v); [done|]. by destruct (truthy v).
Qed.

(** *** The two normalisers *)

Lemma normalize_json_item_run (item : json_item) (w : World) :
  match json_record item with
  | Some r => ∃ date, item_getitem item "date" = Ok date
                      ∧ normalize_json_item item w = (Ok r, (parse_date date w).2)
  | None => ∃ e, normalize_json_item item w = (Raise e, w)
  end.
Proof.
  unfold json_record, returned, normalize_json_item, bind, lift, ret.
  destruct item as [d|v]; cbn [item_getitem item_get]; [|cbn; eauto].
  unfold getitem.
  destruct (d !! "id") as [id|]; [|cbn; eauto].
  destruct (d !! "code") as [code|]; [|cbn; eauto].
  destruct (d !! "status") as [st|]; [|cbn; eauto].
  destruct (d !! "date") as [date|]; [|cbn; eauto].
  rewrite parse_date_spec. cbn. exists date. by rewrite parse_date_spec.
Qed.

Lemma normalize_csv_row_run (row : gmap string pyval) (w : World) :
  match csv_record row with
  | Some r => ∃ date, getitem row "submitted_at" = Ok date
      ∧ normalize_csv_row row w = (Ok r, (parse_date (PyStr (py_str date)) w).2)
  | None => ∃ e, normalize_csv_row row w = (Raise e, w)
  end.
Proof.
  unfold csv_record, returned, normalize_csv_row, bind, lift, ret, getitem.
  destruct (row !! "claim_id") as [id|]; [|cbn; eauto].
  destruct (row !! "procedure_code") as [code|]; [|cbn; eauto].
  destruct (row !! "status") as [st|]; [|cbn; eauto].
  destruct (row !! "submitted_at") as [date|]; [|cbn; eauto].
  rewrite parse_date_spec. cbn. exists date. by rewrite parse_date_spec.
Qed.

(** What an emitted record of the nested source holds. *)
Lemma json_record_fields (item : json_item) (r : Claim) :
  json_record item = Some r →
  ∃ d id code st date,
    item = JObject d ∧ d !! "id" = Some id ∧ d !! "code" = Some code
    ∧ d !! "status" = Some st ∧ d !! "date" = Some date
    ∧ r = {| claim_id := py_str id; patient_id := dict_get d "member";
             procedure_code := py_str code;
             denial_reason := dict_get d "error_msg";
             status := Str.lower (py_str st);
             submitted_at := parsed date; source_system := "beta" |}.
Proof.
  unfold json_record, returned, normalize_json_item, bind, lift, ret.
  destruct item as [d|v]; cbn [item_getitem item_get]; [|done].
  unfold getitem.
  destruct (d !! "id") as [id|] eqn:Hid; [|done].
  destruct (d !! "code") as [code|] eqn:Hcode; [|done].
  destruct (d !! "status") as [st|] eqn:Hst; [|done].
  destruct (d !! "date") as [date|] eqn:Hdate; [|done].
  rewrite !parse_date_spec. cbn. intros [= <-]. by exists d, id, code, st, date.
Qed.

(** What an emitted record of the tabular source holds. *)
Lemma csv_record_fields (row : gmap string pyval) (r : Claim) :
  csv_record row = Some r →
  ∃ id code st date,
    row !! "claim_id" = Some id ∧ row !! "procedure_code" = Some code
    ∧ row !! "status" = Some st ∧ row !! "submitted_at" = Some date
    ∧ r = {| claim_id := py_str id;
             patient_id :=
               (let v := dict_get row "patient_id" in
                if pd_isna v || py_eq_str v "" then PyNone else v);
             procedure_code := py_str code;
             denial_reason :=
               (let v := dict_get row "denial_reason" in
                if py_eq_str v "None" || pd_isna v then PyNone else v);
             status := Str.lower (py_str st);
             submitted_at := parsed (PyStr (py_str date));
             source_system := "alpha" |}.
Proof.
  unfold csv_record, returned, normalize_csv_row, bind, lift, ret, getitem.
  destruct (row !! "claim_id") as [id|] eqn:Hid; [|done].
  destruct (row !! "procedure_code") as [code|] eqn:Hcode; [|done].
  destruct (row !! "status") as [st|] eqn:Hst; [|done].
  destruct (row !! "submitted_at") as [date|] eqn:Hdate; [|done].
  rewrite !parse_date_spec. cbn. intros [= <-]. by exists id, code, st, date.
Qed.

Lemma normalize_json_item_ok item w r w' :
  normalize_json_item item w = (Ok r, w') → json_record item = Some r.
Proof.
  intros H. pose proof (normalize_json_item_run item w) as Hrun.
  destruct (json_record item) as [r0|].
  - destruct Hrun as (date & _ & Hrun). congruence.
  - destruct Hrun as [e Hrun]. congruence.
Qed.

Lemma normalize_csv_row_ok row w r w' :
  normalize_csv_row row w = (Ok r, w') → csv_record row = Some r.
Proof.
  intros H. pose proof (normalize_csv_row_run row w) as Hrun.
  destruct (csv_record row) as [r0|].
  - destruct Hrun as (date & _ & Hrun). congruence.
  - destruct Hrun as [e Hrun]. congruence.
Qed.

(** *** The two ingestion loops *)

Lemma count_beta_emitted n k m :
  count_beta n k (bump_beta m) = count_beta (1 + n) k m.
Proof. unfold count_beta, bump_beta. cbn. f_equal; lia. Qed.

Lemma count_beta_dropped n k m :
  count_beta n k (bump_malformed m) = count_beta n (1 + k) m.
Proof. unfold count_beta, bump_malformed. cbn. f_equal; lia. Qed.

Lemma count_alpha_emitted n k m :
  count_alpha n k (bump_alpha m) = count_alpha (1 + n) k m.
Proof. unfold count_alpha, bump_alpha. cbn. f_equal; lia. Qed.

Lemma count_alpha_dropped n k m :
  count_alpha n k (bump_malformed m) = count_alpha n (1 + k) m.
Proof. unfold count_alpha, bump_malformed. cbn. f_equal; lia. Qed.

(** A record that fails to normalise is dropped: the loop logs it, counts
    it as malformed and goes on with the records after it. *)
Lemma json_item_dropped item rest records w :
  json_record item = None →
  ∃ e, ingest_json_items (item :: rest) records w
       = ingest_json_items rest records
           (with_metrics (bump_malformed (metrics (self w)))
                         (log_add (LogMalformedJson item e) w)).
Proof.
  intros Hnone. pose proof (normalize_json_item_run item w) as Hrun.
  rewrite Hnone in Hrun. destruct Hrun as [e Hrun]. exists e.
  cbn [ingest_json_items]. unfold bind at 1, try_except, bind at 1.
  by rewrite Hrun.
Qed.

Lemma csv_row_dropped row rest records w :
  csv_record row = None →
  ∃ e, ingest_csv_rows (row :: rest) records w
       = ingest_csv_rows rest records
           (with_metrics (bump_malformed (metrics (self w)))
                         (log_add (LogMalformedCsv row e) w)).
Proof.
  intros Hnone. pose proof (normalize_csv_row_run row w) as Hrun.
  rewrite Hnone in Hrun. destruct Hrun as [e Hrun]. exists e.
  cbn [ingest_csv_rows]. unfold bind at 1, try_except, bind at 1.
  by rewrite Hrun.
Qed.

(** A record that normalises is appended and counted for its source. *)
Lemma json_item_emitted item rest records w r :
  json_record item = Some r →
  ∃ w1, self w1 = self w
        ∧ ingest_json_items (item :: rest) records w
          = ingest_json_items rest (records ++ [r])
              (with_metrics (bump_beta (metrics (self w))) w1).
Proof.
  intros Hsome. pose proof (normalize_json_item_run item w) as Hrun.
  rewrite Hsome in Hrun. destruct Hrun as (date & _ & Hrun).
  exists (parse_date date w).2. split; [apply parse_date_self|].
  cbn [ingest_json_items]. unfold bind at 1, try_except, bind at 1.
  rewrite Hrun. unfold bind, update_metrics, get_self, set_self, ret, bind.
  cbn. unfold with_metrics. by rewrite parse_date_self.
Qed.

Lemma csv_row_emitted row rest records w r :
  csv_record row = Some r →
  ∃ w1, self w1 = self w
        ∧ ingest_csv_rows (row :: rest) records w
          = ingest_csv_rows rest (records ++ [r])
              (with_metrics (bump_alpha (metrics (self w))) w1).
Proof.
  intros Hsome. pose proof (normalize_csv_row_run row w) as Hrun.
  rewrite Hsome in Hrun. destruct Hrun as (date & _ & Hrun).
  exists (parse_date (PyStr (py_str date)) w).2. split; [apply parse_date_self|].
  cbn [ingest_csv_rows]. unfold bind at 1, try_except, bind at 1.
  rewrite Hrun. unfold bind, update_metrics, get_self, set_self, ret, bind.
  cbn. unfold with_metrics. by rewrite parse_date_self.
Qed.

Lemma set_metrics_id p : set_metrics (metrics p) p = p.
Proof. by destruct p. Qed.

Lemma count_beta_0 m : count_beta 0 0 m = m.
Proof. destruct m. unfold count_beta. cbn. f_equal; lia. Qed.

Lemma count_alpha_0 m : count_alpha 0 0 m = m.
Proof. destruct m. unfold count_alpha. cbn. f_equal; lia. Qed.

Lemma emitted_cons {A} (record : A → option Claim) a raw :
  emitted record (a :: raw)
  = match record a with Some _ => 1 | None => 0 end + emitted record raw.
Proof.
  unfold emitted. cbn. destruct (record a); cbn [length]; lia.
Qed.

Lemma dropped_cons {A} (record : A → option Claim) a raw :
  dropped record (a :: raw)
  = match record a with Some _ => 0 | None => 1 end + dropped record raw.
Proof.
  unfold dropped. rewrite emitted_cons. cbn [length].
  destruct (record a); lia.
Qed.

Lemma emitted_dropped_nonneg {A} (record : A → option Claim) raw :
  0 ≤ emitted record raw ∧ 0 ≤ dropped record raw.
Proof.
  induction raw as [|a raw IH].
  - unfold dropped, emitted. cbn. lia.
  - rewrite emitted_cons, dropped_cons. destruct (record a); lia.
Qed.

(** The loop over the nested source returns the records that normalise, in
    order, and counts the others as malformed; nothing else of the object
    changes. *)
Lemma ingest_json_items_spec data : ∀ records w,
  ∃ w', ingest_json_items data records w
        = (Ok (records ++ omap json_record data), w')
        ∧ self w'
          = set_metrics (count_beta (emitted json_record data)
                                    (dropped json_record data)
                                    (metrics (self w))) (self w).
Proof.
  induction data as [|item rest IH]; intros records w.
  - exists w. cbn. rewrite app_nil_r. split; [done|].
    change (dropped json_record []) with 0. change (emitted json_record []) with 0.
    by rewrite count_beta_0, set_metrics_id.
  - rewrite emitted_cons, dropped_cons.
    destruct (json_record item) as [r|] eqn:Hrec.
    + destruct (json_item_emitted item rest records w r Hrec) as (w1 & Hself & ->).
      destruct (IH (records ++ [r])
                  (with_metrics (bump_beta (metrics (self w))) w1))
        as (w' & -> & Hw').
      exists w'. split.
      * cbn. rewrite Hrec. cbn. by rewrite <- app_assoc.
      * rewrite Hw'. cbn. rewrite Hself, count_beta_emitted.
        destruct (self w). reflexivity.
    + destruct (json_item_dropped item rest records w Hrec) as (e & ->).
      destruct (IH records
                  (with_metrics (bump_malformed (metrics (self w)))
                                (log_add (LogMalformedJson item e) w)))
        as (w' & -> & Hw').
      exists w'. split.
      * cbn. by rewrite Hrec.
      * rewrite Hw'. cbn. rewrite count_beta_dropped.
        destruct (self w). reflexivity.
Qed.

Lemma ingest_csv_rows_spec rows : ∀ records w,
  ∃ w', ingest_csv_rows rows records w
        = (Ok (records ++ omap csv_record rows), w')
        ∧ self w'
          = set_metrics (count_alpha (emitted csv_record rows)
                                     (dropped csv_record rows)
                                     (metrics (self w))) (self w).
Proof.
  induction rows as [|row rest IH]; intros records w.
  - exists w. cbn. rewrite app_nil_r. split; [done|].
    change (dropped csv_record []) with 0. change (emitted csv_record []) with 0.
    by rewrite count_alpha_0, set_metrics_id.
  - rewrite emitted_cons, dropped_cons.
    destruct (csv_record row) as [r|] eqn:Hrec.
    + destruct (csv_row_emitted row rest records w r Hrec) as (w1 & Hself & ->).
      destruct (IH (records ++ [r])
                  (with_metrics (bump_alpha (metrics (self w))) w1))
        as (w' & -> & Hw').
      exists w'. split.
      * cbn. rewrite Hrec. cbn. by rewrite <- app_assoc.
      * rewrite Hw'. cbn. rewrite Hself, count_alpha_emitted.
        destruct (self w). reflexivity.
    + destruct (csv_row_dropped row rest records w Hrec) as (e & ->).
      destruct (IH records
                  (with_metrics (bump_malformed (metrics (self w)))
                                (log_add (LogMalformedCsv row e) w)))
        as (w' & -> & Hw').
      exists w'. split.
      * cbn. by rewrite Hrec.
      * rewrite Hw'. cbn. rewrite count_alpha_dropped.
        destruct (self w). reflexivity.
Qed.

(** *** Null markers and required fields *)

Lemma native_marker_dict_get (d : gmap string pyval) key :
  d !! key = None ∨ d !! key = Some PyNone → dict_get d key = PyNone.
Proof. unfold dict_get. by intros [-> | ->]. Qed.




Lemma py_str_empty v : py_str v = "" → v = PyStr "".
Proof.
  destruct v as [|[]|n| |s]; cbn; try done.
  - unfold Str.of_Z, NilZero.string_of_int.
    by destruct (Z.to_int n) as [[]|[]].
  - by intros ->.
Qed.

Lemma csv_missing_key row key :
  key ∈ alpha_required → row !! key = None → csv_record row = None.
Proof.
  intros Hkey Hnone. destruct (csv_record row) as [r|] eqn:Hrec; [|done].
  apply csv_record_fields in Hrec as (id & code & st & date & ? & ? & ? & ? & _).
  unfold alpha_required in Hkey.
  repeat (apply elem_of_cons in Hkey as [-> | Hkey]; [congruence|]).
  by apply elem_of_nil in Hkey.
Qed.

Lemma json_missing_key item key :
  key ∈ beta_required → (∀ v, item_getitem item key ≠ Ok v) →
  json_record item = None.
Proof.
  intros Hkey Hnone. destruct (json_record item) as [r|] eqn:Hrec; [|done].
  apply json_record_fields in Hrec
    as (d & id & code & st & date & -> & Hid & Hcode & Hst & Hdate & _).
  unfold beta_required in Hkey. cbn in Hnone. unfold getitem in Hnone.
  repeat (apply elem_of_cons in Hkey as [-> | Hkey];
          [exfalso; eapply Hnone;
           first [by rewrite Hid | by rewrite Hcode
                 | by rewrite Hst | by rewrite Hdate]|]).
  by apply elem_of_nil in Hkey.
Qed.

(** C7, amended: a record is emitted exactly when every key the normaliser
    reads with [[]] is there (and, in the nested source, the item is an
    object).  An emitted claim carries the tag of its source and the text of
    the raw id, code and status (the status in lowercase), which is empty
    only when the raw value is the empty text.  A record that lacks a
    required key is not emitted: it is dropped and counted as malformed,
    and the records after it are normalised as if it were not there. *)
Theorem malformed_records_are_dropped (rows : list (gmap string pyval))
    (data : list json_item) (w : World) :
  (∃ w1, ingest_csv_rows rows [] w = (Ok (omap csv_record rows), w1)
         ∧ metrics (self w1)
           = count_alpha (emitted csv_record rows) (dropped csv_record rows)
                         (metrics (self w)))
  ∧ (∃ w2, ingest_json_items data [] w = (Ok (omap json_record data), w2)
           ∧ metrics (self w2)
             = count_beta (emitted json_record data) (dropped json_record data)
                          (metrics (self w)))
  ∧ (∀ r, r ∈ omap csv_record rows →
          ∃ row id code st,
            row ∈ rows ∧ row !! "claim_id" = Some id
            ∧ row !! "procedure_code" = Some code ∧ row !! "status" = Some st
            ∧ populated_from r id code st "alpha")
  ∧ (∀ r, r ∈ omap json_record data →
          ∃ d id code st,
            JObject d ∈ data ∧ d !! "id" = Some id
            ∧ d !! "code" = Some code ∧ d !! "status" = Some st
            ∧ populated_from r id code st "beta")
  ∧ (∀ row key, key ∈ alpha_required → row !! key = None →
                csv_record row = None)
  ∧ (∀ item key, key ∈ beta_required → (∀ v, item_getitem item key ≠ Ok v) →
                 json_record item = None)
  ∧ (∀ v, py_str v = "" → v = PyStr "").
Proof.
  split; [|split; [|split; [|split; [|split; [|split]]]]].
  - destruct (ingest_csv_rows_spec rows [] w) as (w1 & Hrun & Hself).
    exists w1. split; [done|]. by rewrite Hself.
  - destruct (ingest_json_items_spec data [] w) as (w2 & Hrun & Hself).
    exists w2. split; [done|]. by rewrite Hself.
  - intros r (row & Hrow & Hrec)%list_elem_of_omap.
    apply csv_record_fields in Hrec
      as (id & code & st & date & ? & ? & ? & ? & ->).
    by exists row, id, code, st.
  - intros r (item & Hitem & Hrec)%list_elem_of_omap.
    apply json_record_fields in Hrec
      as (d & id & code & st & date & -> & ? & ? & ? & ? & ->).
    by exists d, id, code, st.
  - apply csv_missing_key.
  - apply json_missing_key.
  - apply py_str_empty.
Qed.

Lemma malformed_records_are_dropped_witness :
  ∃ w2, ingest_json_items [no_id_item; item_B988] [] start
        = (Ok (omap json_record [no_id_item; item_B988]), w2)
        ∧ metrics (self w2) = count_beta 1 1 zero_metrics.
Proof.
  exact (proj1 (proj2 (malformed_records_are_dropped [] [no_id_item; item_B988]
                         start))).
Defined.

(** An item of the nested source whose id is the empty text is emitted with
    an empty [claim_id] and is not counted as malformed: the claim of C7
    fails there. *)
Lemma empty_claim_id_is_emitted :
  ∃ r w', ingest_json_source (Some [empty_id_item]) start = (Ok [r], w')
          ∧ claim_id r = ""
          ∧ malformed_records (metrics (self w')) = 0.
Proof. eexists _, _. split; [vm_compute; reflexivity|]. by cbn. Qed.

(** *** The evaluation of a claim only reads the object *)

Lemma classify_self v w : only_logged w (classify_ambiguous_denial v w).2.
Proof.
  unfold classify_ambiguous_denial.
  destruct (negb (truthy v)); [done|].
  unfold ambiguous_fallback, bind, lift, py_lower.
  destruct v as [|[]|n| |s]; try done.
  by destruct (existsb _ heuristic_keywords).
Qed.

Lemma classify_returns (v : pyval) w :
  match v with PyNone | PyStr _ => True | _ => False end →
  ∃ b, (classify_ambiguous_denial v w).1 = Ok b.
Proof.
  unfold classify_ambiguous_denial.
  destruct v as [|[]|n| |s]; try done; intros _; [by exists false|].
  destruct (negb (truthy (PyStr s))); [by exists false|].
  unfold ambiguous_fallback, bind, lift, py_lower.
  destruct (existsb _ heuristic_keywords); cbn; eauto.
Qed.

Lemma denial_reason_rule_self c w : only_logged w (denial_reason_rule c w).2.
Proof.
  unfold denial_reason_rule, normalize_denial_reason.
  destruct (negb (truthy (denial_reason c))) eqn:Ht.
  - unfold bind, ret. cbn.
    by destruct (denial_reason c) as [|[]|n| |s]; cbn.
  - unfold bind at 1. unfold bind at 1. unfold lift, py_lower.
    destruct (denial_reason c) as [|[]|n| |s]; try done. unfold ret at 1.
    set (v := PyStr (Str.strip (Str.lower s))).
    destruct (negb (truthy v)).
    + unfold bind. pose proof (classify_self v w) as Hc.
      destruct (classify_ambiguous_denial v w) as [[[]|e] w1]; exact Hc.
    + unfold bind, get_self.
      destruct (py_in_set v _); [done|]. destruct (py_in_set v _); [done|].
      pose proof (classify_self v w) as Hc.
      destruct (classify_ambiguous_denial v w) as [[[]|e] w1]; exact Hc.
Qed.

Lemma is_eligible_self c w :
  only_logged w (is_eligible_for_resubmission c w).2.
Proof.
  unfold is_eligible_for_resubmission.
  destruct (negb (String.eqb (status c) "denied")); [done|].
  destruct (negb (truthy (patient_id c))); [done|].
  destruct (submitted_at c) as [t|]; [|done].
  unfold bind, get_self, lift.
  destruct (days_old_of (self w) t) as [d|e]; [|done].
  destruct (d <=? 7); [done|]. apply denial_reason_rule_self.
Qed.

Lemma generate_world c w : (generate_recommended_changes c w).2 = w.
Proof.
  unfold generate_recommended_changes.
  destruct (negb (truthy (denial_reason c))); [done|].
  unfold bind, lift, py_lower. by destruct (denial_reason c) as [|[]|n| |s].
Qed.

(** An eligible claim has a text reason, so the recommendation is found
    without an error. *)
Lemma eligible_reason_is_text c w reason w' :
  is_eligible_for_resubmission c w = (Ok (true, reason), w') →
  ∃ s, denial_reason c = PyStr s.
Proof.
  unfold is_eligible_for_resubmission.
  destruct (negb (String.eqb (status c) "denied")); [done|].
  destruct (negb (truthy (patient_id c))); [done|].
  destruct (submitted_at c) as [t|]; [|done].
  unfold bind at 1, get_self. unfold bind at 1, lift.
  destruct (days_old_of (self w) t) as [d|e]; [|done].
  destruct (d <=? 7); [done|].
  unfold denial_reason_rule, normalize_denial_reason.
  destruct (denial_reason c) as [|[]|n| |s]; cbn; unfold ret;
    [done|done|done|destruct (n =? 0); by cbn|done|by exists s].
Qed.

Lemma generate_returns c s w :
  denial_reason c = PyStr s →
  ∃ changes, generate_recommended_changes c w = (Ok changes, w).
Proof.
  intros Hs. unfold generate_recommended_changes. rewrite Hs.
  destruct (negb (truthy (PyStr s))); [by eexists|].
  unfold bind, lift, py_lower, ret. by eexists.
Qed.

(** *** Routing *)

Lemma count_routed_0 m : count_routed 0 0 m = m.
Proof. destruct m. unfold count_routed. cbn. f_equal; lia. Qed.

Lemma count_routed_candidate a b m :
  count_routed a b (bump_candidates m) = count_routed (1 + a) b m.
Proof. unfold count_routed, bump_candidates. cbn. f_equal; lia. Qed.

Lemma count_routed_exclusion a b m :
  count_routed a b (bump_excluded m) = count_routed a (1 + b) m.
Proof. unfold count_routed, bump_excluded. cbn. f_equal; lia. Qed.

(** One turn of the loop: an error leaves the loop, an eligible claim is
    appended to the candidates and any other claim to the exclusions. *)
Lemma route_claims_cons claim rest cands excl w :
  match is_eligible_for_resubmission claim w with
  | (Raise e, w1) => route_claims (claim :: rest) cands excl w = (Raise e, w1)
  | (Ok (true, _), w1) =>
      ∃ changes,
        route_claims (claim :: rest) cands excl w
        = route_claims rest
            (cands ++ [{| cand_claim_id := claim_id claim;
                          resubmission_reason :=
                            py_or (denial_reason claim) (PyStr "Unknown");
                          cand_source_system := source_system claim;
                          recommended_changes := changes |}])
            excl (with_metrics (bump_candidates (metrics (self w))) w1)
  | (Ok (false, reason), w1) =>
      route_claims (claim :: rest) cands excl w
      = route_claims rest cands
          (excl ++ [{| excl_claim_id := claim_id claim;
                       exclusion_reason := reason;
                       excl_source_system := source_system claim |}])
          (with_metrics (bump_excluded (metrics (self w))) w1)
  end.
Proof.
  destruct (is_eligible_self claim w) as (Hself & _ & _).
  destruct (is_eligible_for_resubmission claim w) as [[[[] reason]|e] w1] eqn:He;
    cbn [snd] in Hself.
  - destruct (eligible_reason_is_text _ _ _ _ He) as [s Hs].
    destruct (generate_returns claim s w1 Hs) as [changes Hg].
    exists changes. cbn [route_claims]. unfold bind at 1. rewrite He.
    unfold bind at 1. rewrite Hg.
    unfold bind, update_metrics, get_self, set_self, with_metrics. cbn.
    by rewrite Hself.
  - cbn [route_claims]. unfold bind at 1. rewrite He.
    unfold bind, update_metrics, get_self, set_self, with_metrics. cbn.
    by rewrite Hself.
  - cbn [route_claims]. unfold bind at 1. by rewrite He.
Qed.

Lemma routed_ids_candidate cands excl c :
  routed_ids (cands ++ [c]) excl ≡ₚ routed_ids cands excl ++ [cand_claim_id c].
Proof. unfold routed_ids. rewrite fmap_app. cbn. solve_Permutation. Qed.

Lemma routed_ids_exclusion cands excl x :
  routed_ids cands (excl ++ [x]) ≡ₚ routed_ids cands excl ++ [excl_claim_id x].
Proof. unfold routed_ids. rewrite fmap_app. cbn. solve_Permutation. Qed.

(** The loop changes two counters only, by the numbers of claims it put on
    the two lists; when it returns, every claim is on exactly one list. *)
Lemma route_claims_spec claims : ∀ cands excl w,
  ∃ a b,
    0 ≤ a ∧ 0 ≤ b
    ∧ self (route_claims claims cands excl w).2
      = set_metrics (count_routed a b (metrics (self w))) (self w)
    ∧ candidates_file (route_claims claims cands excl w).2 = candidates_file w
    ∧ excluded_file (route_claims claims cands excl w).2 = excluded_file w
    ∧ match (route_claims claims cands excl w).1 with
      | Ok (cands', excl') =>
          Z.of_nat (length cands') = Z.of_nat (length cands) + a
          ∧ Z.of_nat (length excl') = Z.of_nat (length excl) + b
          ∧ routed_ids cands' excl'
            ≡ₚ routed_ids cands excl ++ (claim_id <$> claims)
          ∧ a + b = Z.of_nat (length claims)
      | Raise _ => a + b < Z.of_nat (length claims)
      end.
Proof.
  induction claims as [|claim rest IH]; intros cands excl w.
  - exists 0, 0. cbn. rewrite count_routed_0, set_metrics_id, app_nil_r.
    repeat split; (lia || done).
  - pose proof (route_claims_cons claim rest cands excl w) as Hstep.
    destruct (is_eligible_self claim w) as (Hself & Hcf & Hxf).
    destruct (is_eligible_for_resubmission claim w) as [[[[] reason]|e] w1];
      cbn [snd] in Hself, Hcf, Hxf.
    + destruct Hstep as [changes ->].
      set (c := {| cand_claim_id := claim_id claim |}).
      destruct (IH (cands ++ [c]) excl
                  (with_metrics (bump_candidates (metrics (self w))) w1))
        as (a & b & Ha & Hb & Hs & Hc & Hx & Hres).
      exists (1 + a), b. rewrite Hs, Hc, Hx. cbn.
      rewrite Hself, count_routed_candidate.
      split; [lia|]. split; [done|]. split; [by destruct (self w)|].
      split; [done|]. split; [done|].
      destruct (route_claims rest _ _ _).1 as [[cands' excl']|]; [|cbn; lia].
      destruct Hres as (Hl1 & Hl2 & Hp & Hsum).
      rewrite length_app in Hl1. cbn in Hl1.
      split; [lia|]. split; [done|]. split; [|cbn; lia].
      rewrite Hp, routed_ids_candidate. cbn. by rewrite <- app_assoc.
    + rewrite Hstep.
      set (x := {| excl_claim_id := claim_id claim |}).
      destruct (IH cands (excl ++ [x])
                  (with_metrics (bump_excluded (metrics (self w))) w1))
        as (a & b & Ha & Hb & Hs & Hc & Hx & Hres).
      exists a, (1 + b). rewrite Hs, Hc, Hx. cbn.
      rewrite Hself, count_routed_exclusion.
      split; [done|]. split; [lia|]. split; [by destruct (self w)|].
      split; [done|]. split; [done|].
      destruct (route_claims rest _ _ _).1 as [[cands' excl']|]; [|cbn; lia].
      destruct Hres as (Hl1 & Hl2 & Hp & Hsum).
      rewrite length_app in Hl2. cbn in Hl2.
      split; [done|]. split; [lia|]. split; [|cbn; lia].
      rewrite Hp, routed_ids_exclusion. cbn. by rewrite <- app_assoc.
    + rewrite Hstep. exists 0, 0. cbn.
      rewrite Hself, count_routed_0, set_metrics_id.
      repeat split; (lia || done).
Qed.

(** *** The orchestrator *)

Lemma ingest_csv_source_spec df w :
  ∃ w', ingest_csv_source df w = (Ok (omap csv_record (default [] df)), w')
        ∧ self w'
          = set_metrics (count_alpha (emitted csv_record (default [] df))
                                     (dropped csv_record (default [] df))
                                     (metrics (self w))) (self w).
Proof.
  unfold ingest_csv_source, try_except, bind at 1, logger.
  destruct df as [rows|]; cbn [default].
  - destruct (ingest_csv_rows_spec rows [] (log_add (LogInfo "Processing CSV source") w))
      as (w' & Hrun & Hself).
    exists w'. unfold log_add in Hrun. by rewrite Hrun.
  - eexists. cbn. split; [reflexivity|]. cbn.
    change (dropped csv_record []) with 0. change (emitted csv_record []) with 0.
    by rewrite count_alpha_0, set_metrics_id.
Qed.

Lemma ingest_json_source_spec data w :
  ∃ w', ingest_json_source data w = (Ok (omap json_record (default [] data)), w')
        ∧ self w'
          = set_metrics (count_beta (emitted json_record (default [] data))
                                    (dropped json_record (default [] data))
                                    (metrics (self w))) (self w).
Proof.
  unfold ingest_json_source, try_except, bind at 1, logger.
  destruct data as [items|]; cbn [default].
  - destruct (ingest_json_items_spec items [] (log_add (LogInfo "Processing JSON source") w))
      as (w' & Hrun & Hself).
    exists w'. unfold log_add in Hrun. by rewrite Hrun.
  - eexists. cbn. split; [reflexivity|]. cbn.
    change (dropped json_record []) with 0. change (emitted json_record []) with 0.
    by rewrite count_beta_0, set_metrics_id.
Qed.

(** The run up to the loop and after it: the loop starts from the object
    [before_routing], and what it returns is finished by the two writes. *)
Lemma process_pipeline_run df data w :
  ∃ w0, self w0 = before_routing df data (self w)
        ∧ process_pipeline df data w
          = finish (route_claims (claims_of df data) [] [] w0).
Proof.
  unfold process_pipeline. unfold bind at 1, logger.
  set (wa := {| self := self w |}).
  destruct (ingest_csv_source_spec df wa) as (wb & Hcsv & Hb).
  unfold bind at 1. rewrite Hcsv.
  destruct (ingest_json_source_spec data wb) as (wc & Hjson & Hc).
  unfold bind at 1. rewrite Hjson.
  fold (claims_of df data).
  eexists. split; cycle 1.
  { unfold bind, get_self, set_self, update_metrics, bind, get_self, set_self,
      logger, finish.
    cbn [self unified_claims set_unified_claims metrics log candidates_file
         excluded_file].
    match goal with
    | |- context [route_claims _ [] [] ?w] => set (w0 := w)
    end.
    destruct (route_claims (claims_of df data) [] [] w0) as [[[cands excl]|e] w1]
      eqn:E; subst w0; rewrite E; reflexivity. }
  cbn [self]. rewrite Hc, Hb. subst wa. cbn [self].
  unfold before_routing. by destruct (self w).
Qed.

Lemma logger_then {A} ev (k : unit → M A) w :
  bind (logger ev) k w = k tt (log_add ev w).
Proof. reflexivity. Qed.

Lemma log_metrics_run w :
  ∃ w', log_metrics w = (Ok tt, w') ∧ only_logged w w'.
Proof.
  unfold log_metrics. unfold bind at 1, get_self.
  rewrite !logger_then. eexists. split; [reflexivity|]. by repeat split.
Qed.

Lemma finish_ok cands excl w1 :
  ∃ w2, finish (Ok (cands, excl), w1) = (Ok cands, w2)
        ∧ self w2 = self w1
        ∧ candidates_file w2 = Some cands
        ∧ excluded_file w2 = Some excl.
Proof.
  unfold finish. unfold bind at 1, write_candidates.
  unfold bind at 1, write_excluded. unfold bind at 1.
  match goal with |- context [log_metrics ?w] =>
    destruct (log_metrics_run w) as (w2 & -> & Hs & Hc & Hx) end.
  exists w2. split; [reflexivity|]. by rewrite Hs, Hc, Hx.
Qed.

(** *** Claims whose evaluation cannot raise *)

Lemma denial_reason_rule_returns c w :
  match denial_reason c with PyNone | PyStr _ => True | _ => False end →
  ∃ v, (denial_reason_rule c w).1 = Ok v.
Proof.
  unfold denial_reason_rule, normalize_denial_reason.
  destruct (denial_reason c) as [|[]|n| |s]; try done; intros _.
  { cbn. eauto. }
  destruct (negb (truthy (PyStr s))).
  { cbn. eauto. }
  unfold bind at 1. unfold bind at 1. unfold lift, py_lower, ret at 1.
  set (v := PyStr (Str.strip (Str.lower s))).
  destruct (classify_returns v w I) as [b Hb].
  destruct (negb (truthy v)).
  - unfold bind. destruct (classify_ambiguous_denial v w) as [o w1].
    cbn in Hb. subst o. destruct b; cbn; eauto.
  - unfold bind, get_self.
    destruct (py_in_set v _); [cbn; eauto|].
    destruct (py_in_set v _); [cbn; eauto|].
    destruct (classify_ambiguous_denial v w) as [o w1].
    cbn in Hb. subst o. destruct b; cbn; eauto.
Qed.

Lemma is_eligible_returns c w :
  evaluable c = true →
  tzinfo (current_date (self w)) = None →
  ∃ v, (is_eligible_for_resubmission c w).1 = Ok v.
Proof.
  unfold evaluable. intros [Hreason Hdate]%andb_prop Hnow.
  unfold is_eligible_for_resubmission.
  destruct (negb (String.eqb (status c) "denied")); [cbn; eauto|].
  destruct (negb (truthy (patient_id c))); [cbn; eauto|].
  destruct (submitted_at c) as [t|]; [|cbn; eauto].
  destruct (tzinfo t) eqn:Ht; [done|].
  unfold bind, get_self, lift, days_old_of, Datetime.sub.
  rewrite Hnow, Ht. cbn [obind].
  destruct (_ <=? 7); [cbn; eauto|].
  apply denial_reason_rule_returns.
  by destruct (denial_reason c) as [|[]|n| |s].
Qed.

Lemma route_claims_returns claims : ∀ cands excl w,
  forallb evaluable claims = true →
  tzinfo (current_date (self w)) = None →
  ∃ res, (route_claims claims cands excl w).1 = Ok res.
Proof.
  induction claims as [|claim rest IH]; intros cands excl w Hall Hnow.
  - cbn. eauto.
  - cbn [forallb] in Hall. apply andb_prop in Hall as [Hc Hrest].
    pose proof (route_claims_cons claim rest cands excl w) as Hstep.
    destruct (is_eligible_self claim w) as (Hself & _ & _).
    destruct (is_eligible_returns claim w Hc Hnow) as [v Hv].
    destruct (is_eligible_for_resubmission claim w) as [[[[] reason]|e] w1];
      cbn [fst snd] in Hself, Hv; [| |done].
    + destruct Hstep as [changes ->]. apply IH; [done|].
      cbn. by rewrite Hself.
    + rewrite Hstep. apply IH; [done|]. cbn. by rewrite Hself.
Qed.

Lemma metrics_le_count_alpha a b m :
  0 ≤ a → 0 ≤ b → metrics_le m (count_alpha a b m).
Proof. unfold metrics_le, count_alpha. cbn. lia. Qed.

Lemma metrics_le_count_beta a b m :
  0 ≤ a → 0 ≤ b → metrics_le m (count_beta a b m).
Proof. unfold metrics_le, count_beta. cbn. lia. Qed.

Lemma metrics_le_count_routed a b m :
  0 ≤ a → 0 ≤ b → metrics_le m (count_routed a b m).
Proof. unfold metrics_le, count_routed. cbn. lia. Qed.

Lemma metrics_set_metrics m p : metrics (set_metrics m p) = m.
Proof. done. Qed.




(** *** Text of dates *)

Lemma range_check (P : Z → bool) (a k n : Z) :
  forallb P (seqZ a n) = true → a ≤ k < a + n → P k = true.
Proof.
  intros Hall Hk. rewrite forallb_forall in Hall. apply Hall.
  apply list_elem_of_In, elem_of_seqZ. lia.
Qed.

Lemma pad2_checked n : 0 ≤ n ≤ 99 → pad2_ok n = true.
Proof.
  intros Hn. apply (range_check pad2_ok 0 n 100); [by vm_compute|lia].
Qed.

Lemma pad4_checked n : 0 ≤ n ≤ 9999 → pad4_ok n = true.
Proof.
  intros Hn. apply (range_check pad4_ok 0 n 10000); [by vm_compute|lia].
Qed.

Lemma digits_pad4 y : 0 ≤ y ≤ 9999 → Str.digits_acc 0 (Str.pad4 y) = Some y.
Proof.
  intros Hy%pad4_checked. unfold pad4_ok in Hy.
  apply andb_prop in Hy as [Hy _].
  destruct (Str.digits_acc 0 (Str.pad4 y)) as [v|]; [|done].
  f_equal. lia.
Qed.

Lemma append_cons c (a b : string) : String c a +:+ b = String c (a +:+ b).
Proof. done. Qed.

Lemma append_nil_l (b : string) : "" +:+ b = b.
Proof. done. Qed.

Lemma take2_pad2 n r : 0 ≤ n ≤ 99 → take2 (Str.pad2 n +:+ r) = Some (n, r).
Proof.
  intros Hn%pad2_checked. unfold pad2_ok in Hn.
  apply andb_prop in Hn as [Hn _]. unfold Str.pad2 in *.
  rewrite !append_cons, append_nil_l. unfold take2 in *.
  destruct (Str.digit (Str.digit_char (n / 10))) as [x|]; [|done].
  destruct (Str.digit (Str.digit_char (n mod 10))) as [y|]; [|done].
  cbn in *. f_equal. f_equal. lia.
Qed.

Lemma all_chars_app P a b :
  Str.all_chars P (a +:+ b) = Str.all_chars P a && Str.all_chars P b.
Proof.
  induction a as [|c a IH]; [done|].
  rewrite append_cons. cbn. by rewrite IH, andb_assoc.
Qed.

Lemma all_chars_weaken (P Q : ascii → bool) s :
  (∀ c, P c = true → Q c = true) →
  Str.all_chars P s = true → Str.all_chars Q s = true.
Proof.
  intros HPQ. induction s as [|c s IH]; [done|]. cbn.
  intros [Hc Hs]%andb_prop. by rewrite (HPQ c Hc), IH.
Qed.

(** A character that fails [P] does not occur in a text of [P]s. *)
Lemma find_absent P c s :
  Str.all_chars P s = true → P c = false → Str.find c s = None.
Proof.
  intros Hs Hc. induction s as [|a s IH]; [done|]. cbn in *.
  apply andb_prop in Hs as [Ha Hs].
  destruct (Ascii.eqb a c) eqn:E.
  - apply Ascii.eqb_eq in E. congruence.
  - by rewrite IH.
Qed.

Lemma replace_absent old new s :
  Str.find old s = None → Str.replace old new s = s.
Proof.
  induction s as [|a s IH]; [done|]. cbn.
  destruct (Ascii.eqb a old); [done|].
  destruct (Str.find old s); [done|]. intros _. by rewrite IH.
Qed.

Lemma append_assoc (a b c : string) : (a +:+ b) +:+ c = a +:+ (b +:+ c).
Proof.
  induction a as [|x a IH]; [done|]. rewrite !append_cons. by rewrite IH.
Qed.

Lemma append_nil_r (a : string) : a +:+ "" = a.
Proof.
  induction a as [|x a IH]; [done|]. rewrite append_cons. by rewrite IH.
Qed.

Lemma replace_app old new a b :
  Str.replace old new (a +:+ b)
  = Str.replace old new a +:+ Str.replace old new b.
Proof.
  induction a as [|x a IH]; [done|]. rewrite append_cons. cbn.
  destruct (Ascii.eqb x old); rewrite IH; [by rewrite append_assoc|done].
Qed.

Lemma strip_prefix_app p s : Str.strip_prefix p (p +:+ s) = Some s.
Proof.
  induction p as [|a p IH]; [done|]. rewrite append_cons. cbn.
  by rewrite Ascii.eqb_refl.
Qed.

Lemma strip_prefix_Some p s r : Str.strip_prefix p s = Some r → s = p +:+ r.
Proof.
  revert s. induction p as [|a p IH]; intros s; cbn.
  - by intros [= ->].
  - destruct s as [|b s]; [done|].
    destruct (Ascii.eqb a b) eqn:E; [|done].
    apply Ascii.eqb_eq in E as ->. intros H. by rewrite (IH s H).
Qed.

Lemma contains_starts_with sub s :
  Str.starts_with sub s = true → Str.contains sub s = true.
Proof. intros H. destruct s; cbn; by rewrite H. Qed.

Lemma contains_app sub a b : Str.contains sub (a +:+ sub +:+ b) = true.
Proof.
  induction a as [|x a IH].
  - rewrite append_nil_l. apply contains_starts_with.
    unfold Str.starts_with. by rewrite strip_prefix_app.
  - rewrite append_cons. cbn. rewrite IH. apply orb_true_r.
Qed.

(** A text is free of the one-character text [c] when [c] is not found. *)
Lemma contains_absent c s :
  Str.find c s = None → Str.contains (String c "") s = false.
Proof.
  induction s as [|a s IH]; [done|]. cbn. unfold Str.starts_with. cbn.
  rewrite (Ascii.eqb_sym a c).
  destruct (Ascii.eqb c a); [done|].
  destruct (Str.find c s); [done|]. intros _. by rewrite IH.
Qed.

Lemma length_append (a b : string) :
  String.length (a +:+ b) = (String.length a + String.length b)%nat.
Proof.
  induction a as [|x a IH]; [done|]. rewrite append_cons. cbn. by rewrite IH.
Qed.

Lemma slice_app a b :
  Str.slice 0 (String.length a) (a +:+ b) = a.
Proof.
  unfold Str.slice. rewrite Nat.sub_0_r.
  induction a as [|x a IH]; [by destruct b|].
  rewrite append_cons. cbn. by rewrite IH.
Qed.

Lemma drop_app a b : Str.drop (String.length a) (a +:+ b) = b.
Proof.
  induction a as [|x a IH]; [done|]. rewrite append_cons. by cbn.
Qed.

Lemma all_digits_pad2 n :
  0 ≤ n ≤ 99 → Str.all_chars Str.is_digit (Str.pad2 n) = true.
Proof.
  intros Hn%pad2_checked. unfold pad2_ok in Hn.
  by apply andb_prop in Hn as [_ Hn].
Qed.

Lemma all_digits_pad4 n :
  0 ≤ n ≤ 9999 → Str.all_chars Str.is_digit (Str.pad4 n) = true.
Proof.
  intros Hn%pad4_checked. unfold pad4_ok in Hn.
  by apply andb_prop in Hn as [_ Hn].
Qed.

Lemma take2_digits n r :
  0 ≤ n ≤ 99 →
  take2 (String (Str.digit_char (n / 10))
           (String (Str.digit_char (n mod 10)) r)) = Some (n, r).
Proof. intros Hn. exact (take2_pad2 n r Hn). Qed.

Lemma digits_acc_digits y :
  0 ≤ y ≤ 9999 →
  Str.digits_acc 0
    (String (Str.digit_char (y / 1000))
       (String (Str.digit_char (y / 100 mod 10))
          (String (Str.digit_char (y / 10 mod 10))
             (String (Str.digit_char (y mod 10)) "")))) = Some y.
Proof. intros Hy. exact (digits_pad4 y Hy). Qed.

Lemma digit_date_char c : Str.is_digit c = true → date_char c = true.
Proof. intros Hc. unfold date_char. by rewrite Hc. Qed.

Lemma digit_time_char c : Str.is_digit c = true → time_char c = true.
Proof. intros Hc. unfold time_char. by rewrite Hc. Qed.

Lemma iso_date_chars y m d :
  0 ≤ y ≤ 9999 → 0 ≤ m ≤ 99 → 0 ≤ d ≤ 99 →
  Str.all_chars date_char (Str.iso_date y m d) = true.
Proof.
  intros Hy Hm Hd. unfold Str.iso_date. rewrite !all_chars_app.
  rewrite (all_chars_weaken _ _ _ digit_date_char (all_digits_pad4 y Hy)),
    (all_chars_weaken _ _ _ digit_date_char (all_digits_pad2 m Hm)),
    (all_chars_weaken _ _ _ digit_date_char (all_digits_pad2 d Hd)).
  done.
Qed.

Lemma iso_time_chars h mi s :
  0 ≤ h ≤ 99 → 0 ≤ mi ≤ 99 → 0 ≤ s ≤ 99 →
  Str.all_chars time_char (Str.iso_time h mi s) = true.
Proof.
  intros Hh Hmi Hs. unfold Str.iso_time. rewrite !all_chars_app.
  rewrite (all_chars_weaken _ _ _ digit_time_char (all_digits_pad2 h Hh)),
    (all_chars_weaken _ _ _ digit_time_char (all_digits_pad2 mi Hmi)),
    (all_chars_weaken _ _ _ digit_time_char (all_digits_pad2 s Hs)).
  done.
Qed.

Lemma time_char_date_char c : time_char c = true → date_char c = true.
Proof.
  unfold time_char, date_char. destruct (Str.is_digit c); [done|]. cbn.
  intros ->. apply orb_true_r.
Qed.

Lemma parse_isoformat_date_iso y m d :
  0 ≤ y ≤ 9999 → 0 ≤ m ≤ 99 → 0 ≤ d ≤ 99 →
  _parse_isoformat_date (Str.iso_date y m d) = Some (y, m, d).
Proof.
  intros Hy Hm Hd. unfold Str.iso_date, Str.pad4, Str.pad2.
  rewrite !append_cons, !append_nil_l. unfold _parse_isoformat_date.
  rewrite digits_acc_digits by done. cbn [mbind option_bind negb Ascii.eqb].
  rewrite !take2_digits by done. reflexivity.
Qed.

Lemma parse_hh_mm_ss_iso h mi s :
  0 ≤ h ≤ 99 → 0 ≤ mi ≤ 99 → 0 ≤ s ≤ 99 →
  _parse_hh_mm_ss_ff (Str.iso_time h mi s) = Some (h, mi, s, 0).
Proof.
  intros Hh Hmi Hs. unfold Str.iso_time, Str.pad2.
  rewrite !append_cons, !append_nil_l. unfold _parse_hh_mm_ss_ff.
  rewrite !take2_digits by done. cbn -[take2 Z.div Z.modulo].
  rewrite !take2_digits by done. cbn -[take2 Z.div Z.modulo].
  rewrite !take2_digits by done. reflexivity.
Qed.

Lemma eqb_nonempty s : (0 < String.length s)%nat → String.eqb s "" = false.
Proof. destruct s; cbn; [lia|done]. Qed.

Lemma parse_isoformat_time_iso h mi s :
  0 ≤ h ≤ 99 → 0 ≤ mi ≤ 99 → 0 ≤ s ≤ 99 →
  _parse_isoformat_time (Str.iso_time h mi s) = Some (h, mi, s, 0, None).
Proof.
  intros Hh Hmi Hs. unfold _parse_isoformat_time.
  change (String.length (Str.iso_time h mi s)) with 8%nat. cbn [Nat.ltb Nat.leb].
  rewrite (find_absent time_char "-" _ (iso_time_chars h mi s Hh Hmi Hs) eq_refl),
    (find_absent time_char "+" _ (iso_time_chars h mi s Hh Hmi Hs) eq_refl).
  cbn [fmap option_fmap option_map].
  by rewrite parse_hh_mm_ss_iso.
Qed.

Lemma fromisoformat_parse_iso y m d h mi s :
  0 ≤ y ≤ 9999 → 0 ≤ m ≤ 99 → 0 ≤ d ≤ 99 →
  0 ≤ h ≤ 99 → 0 ≤ mi ≤ 99 → 0 ≤ s ≤ 99 →
  fromisoformat_parse (Str.iso_date y m d +:+ " " +:+ Str.iso_time h mi s)
  = make y m d h mi s 0 None.
Proof.
  intros Hy Hm Hd Hh Hmi Hs.
  set (text := Str.iso_date y m d +:+ " " +:+ Str.iso_time h mi s).
  assert (Str.slice 0 10 text = Str.iso_date y m d) as Hdate
    by apply (slice_app (Str.iso_date y m d)).
  assert (Str.drop 11 text = Str.iso_time h mi s) as Htime.
  { subst text. rewrite <- append_assoc.
    apply (drop_app (Str.iso_date y m d +:+ " ")). }
  unfold fromisoformat_parse. rewrite Hdate, Htime.
  rewrite parse_isoformat_date_iso by done. cbn [mbind option_bind].
  change (String.length text) with 19%nat. cbn [Nat.leb].
  by rewrite parse_isoformat_time_iso.
Qed.

(** The value the parser returns for ISO text with the separator "T", with
    and without a trailing "Z". *)
Lemma parsed_iso_T y m d h mi s (zone : string) :
  0 ≤ y ≤ 9999 → 0 ≤ m ≤ 99 → 0 ≤ d ≤ 99 →
  0 ≤ h ≤ 99 → 0 ≤ mi ≤ 99 → 0 ≤ s ≤ 99 →
  zone = "" ∨ zone = "Z" →
  parsed (PyStr (Str.iso_date y m d +:+ "T" +:+ Str.iso_time h mi s +:+ zone))
  = make y m d h mi s 0 None.
Proof.
  intros Hy Hm Hd Hh Hmi Hs Hzone.
  pose proof (iso_date_chars y m d Hy Hm Hd) as Hdc.
  pose proof (all_chars_weaken _ _ _ time_char_date_char
                (iso_time_chars h mi s Hh Hmi Hs)) as Htc.
  unfold parsed.
  rewrite eqb_nonempty
    by (rewrite length_append;
        change (String.length (Str.iso_date y m d)) with 10%nat; lia).
  rewrite contains_app.
  rewrite !replace_app.
  rewrite (replace_absent "T" _ _ (find_absent date_char "T" _ Hdc eq_refl)),
    (replace_absent "T" _ _ (find_absent date_char "T" _ Htc eq_refl)).
  rewrite (replace_absent "Z" _ _ (find_absent date_char "Z" _ Hdc eq_refl)),
    (replace_absent "Z" _ _ (find_absent date_char "Z" _ Htc eq_refl)).
  assert (Str.replace "Z" "" (Str.replace "T" " " zone) = "") as ->
    by (by destruct Hzone as [-> | ->]).
  change (Str.replace "Z" "" (Str.replace "T" " " "T")) with " ".
  rewrite append_nil_r. by apply fromisoformat_parse_iso.
Qed.

(** *** The format [%Y-%m-%d] *)

Lemma forallb_elem_of {A} (f : A → bool) (l : list A) x :
  forallb f l = true → x ∈ l → f x = true.
Proof.
  intros Hall Hx. rewrite forallb_forall in Hall.
  by apply Hall, list_elem_of_In.
Qed.

Lemma month_day_checked mt dt :
  mt ∈ month_texts → dt ∈ day_texts → month_day_ok mt dt = true.
Proof.
  intros Hmt Hdt.
  assert (forallb (λ mt, forallb (month_day_ok mt) day_texts) month_texts
          = true) as Hall by (by vm_compute).
  by apply (forallb_elem_of _ _ dt (forallb_elem_of _ _ mt Hall Hmt)).
Qed.

Lemma month_text_chars mt :
  mt ∈ month_texts → Str.all_chars ymd_char mt.1 = true.
Proof.
  apply (forallb_elem_of (λ t : string * Z, Str.all_chars ymd_char t.1)).
  by vm_compute.
Qed.

Lemma day_text_chars dt :
  dt ∈ day_texts → Str.all_chars ymd_char dt.1 = true.
Proof.
  apply (forallb_elem_of (λ t : string * Z, Str.all_chars ymd_char t.1)).
  by vm_compute.
Qed.

Lemma digit_ymd_char c : Str.is_digit c = true → ymd_char c = true.
Proof. intros Hc. unfold ymd_char. by rewrite Hc. Qed.

(** Text of the shape the format matches is converted to its date. *)
Lemma strptime_match_shape y mt m dt d :
  0 ≤ y ≤ 9999 → (mt, m) ∈ month_texts → (dt, d) ∈ day_texts →
  strptime_ymd_match (Str.pad4 y +:+ "-" +:+ mt +:+ "-" +:+ dt)
  = make y m d 0 0 0 0 None.
Proof.
  intros Hy Hmt Hdt. pose proof (month_day_checked _ _ Hmt Hdt) as Hok.
  unfold month_day_ok in Hok. cbn [fst snd] in Hok.
  unfold Str.pad4. rewrite !append_cons, !append_nil_l.
  rewrite !append_cons, !append_nil_l in Hok.
  unfold strptime_ymd_match. rewrite digits_acc_digits by done.
  cbn [mbind option_bind]. change (Ascii.eqb "-" "-") with true. cbn iota.
  destruct (first_month_day (match_month (mt +:+ String "-" dt)))
    as [[[m' d'] [|]]|]; try done.
  apply andb_prop in Hok as [Hm' Hd'].
  by replace m' with m by lia; replace d' with d by lia.
Qed.

Lemma digit_inv c v :
  Str.digit c = Some v → c = Str.digit_char v ∧ 0 ≤ v ≤ 9.
Proof.
  destruct c as [[] [] [] [] [] [] [] []]; cbn; intros [= <-]; done.
Qed.

Lemma digits4_inv a b c d y :
  Str.digits_acc 0 (String a (String b (String c (String d "")))) = Some y →
  String a (String b (String c (String d ""))) = Str.pad4 y ∧ 0 ≤ y ≤ 9999.
Proof.
  cbn.
  destruct (Str.digit a) as [va|] eqn:Ea; [|done].
  destruct (Str.digit b) as [vb|] eqn:Eb; [|done].
  destruct (Str.digit c) as [vc|] eqn:Ec; [|done].
  destruct (Str.digit d) as [vd|] eqn:Ed; [|done].
  apply digit_inv in Ea as [-> Ha], Eb as [-> Hb], Ec as [-> Hc], Ed as [-> Hd].
  intros [= <-]. split; [|lia]. unfold Str.pad4.
  repeat f_equal; Z.div_mod_to_equations; lia.
Qed.

Lemma alternatives_inv texts s v r :
  (v, r) ∈ alternatives texts s → ∃ txt, (txt, v) ∈ texts ∧ s = txt +:+ r.
Proof.
  unfold alternatives. intros ([txt v'] & Hin & Hf)%list_elem_of_omap.
  destruct (Str.strip_prefix txt s) as [r'|] eqn:E; [|done].
  cbn in Hf. injection Hf as -> ->.
  exists txt. split; [done|]. by apply strip_prefix_Some.
Qed.

Lemma first_month_day_inv ms m d rest :
  first_month_day ms = Some (m, d, rest) →
  ∃ r1 r2, (m, r1) ∈ ms ∧ r1 = "-" +:+ r2 ∧ match_day r2 = Some (d, rest).
Proof.
  induction ms as [|[m' r] ms IH]; [done|]. cbn [first_month_day].
  destruct (Str.strip_prefix "-" r) as [r2|] eqn:E; cbn [mbind option_bind].
  - destruct (match_day r2) as [[d' rest']|] eqn:Ed.
    + intros [= -> -> ->]. exists r, r2.
      split; [left|]. split; [by apply strip_prefix_Some|done].
    + intros (r1 & r2' & Hin & ? & ?)%IH. exists r1, r2'.
      split; [by right|done].
  - intros (r1 & r2' & Hin & ? & ?)%IH. exists r1, r2'.
    split; [by right|done].
Qed.

(** Text that the format converts has the shape it matches: four digits,
    a month text and a day text, with hyphens between. *)
Lemma strptime_match_inv s t :
  strptime_ymd_match s = Some t →
  ∃ y mt m dt d,
    s = Str.pad4 y +:+ "-" +:+ mt +:+ "-" +:+ dt
    ∧ 0 ≤ y ≤ 9999 ∧ (mt, m) ∈ month_texts ∧ (dt, d) ∈ day_texts
    ∧ make y m d 0 0 0 0 None = Some t.
Proof.
  unfold strptime_ymd_match.
  destruct s as [|y1 [|y2 [|y3 [|y4 [|sep r]]]]]; try done.
  destruct (Str.digits_acc 0 _) as [y|] eqn:Ey; [|done].
  cbn [mbind option_bind].
  destruct (Ascii.eqb sep "-") eqn:Esep; [|done].
  apply Ascii.eqb_eq in Esep as ->.
  destruct (first_month_day (match_month r)) as [[[m d] [|]]|] eqn:Emd;
    try done.
  intros Hmake.
  apply digits4_inv in Ey as [Ey Hy].
  apply first_month_day_inv in Emd as (r1 & r2 & Hm & -> & Hd).
  apply alternatives_inv in Hm as (mt & Hmt & ->).
  unfold match_day in Hd. apply head_Some_elem_of in Hd.
  apply alternatives_inv in Hd as (dt & Hdt & ->).
  exists y, mt, m, dt, d. rewrite append_nil_r.
  split; [|done].
  change (String y1 (String y2 (String y3 (String y4
            (String "-" (mt +:+ "-" +:+ dt))))))
    with (String y1 (String y2 (String y3 (String y4 ""))) +:+ "-" +:+ mt +:+ "-" +:+ dt).
  by rewrite Ey.
Qed.

Lemma shape_has_no_T y mt m dt d :
  0 ≤ y ≤ 9999 → (mt, m) ∈ month_texts → (dt, d) ∈ day_texts →
  Str.contains "T" (Str.pad4 y +:+ "-" +:+ mt +:+ "-" +:+ dt) = false.
Proof.
  intros Hy Hmt Hdt. apply contains_absent.
  apply (find_absent ymd_char); [|done].
  rewrite !all_chars_app.
  rewrite (all_chars_weaken _ _ _ digit_ymd_char (all_digits_pad4 y Hy)).
  pose proof (month_text_chars _ Hmt) as Hmc.
  pose proof (day_text_chars _ Hdt) as Hdc. cbn [fst] in Hmc, Hdc.
  by rewrite Hmc, Hdc.
Qed.

Lemma days_in_month_le y m : _days_in_month y m ≤ 31.
Proof.
  unfold _days_in_month, _DAYS_IN_MONTH. repeat case_match; lia.
Qed.

Lemma check_date_bounds y m d :
  _check_date_fields y m d = true →
  1 ≤ y ≤ 9999 ∧ 1 ≤ m ≤ 12 ∧ 1 ≤ d ≤ 31.
Proof.
  unfold _check_date_fields. pose proof (days_in_month_le y m).
  intros H'. repeat (apply andb_prop in H' as [H' ?]). lia.
Qed.

Lemma check_time_bounds h mi s us :
  _check_time_fields h mi s us = true →
  0 ≤ h ≤ 23 ∧ 0 ≤ mi ≤ 59 ∧ 0 ≤ s ≤ 59.
Proof.
  unfold _check_time_fields.
  intros H'. repeat (apply andb_prop in H' as [H' ?]). lia.
Qed.

Lemma make_checked y m d h mi s :
  _check_date_fields y m d = true → _check_time_fields h mi s 0 = true →
  make y m d h mi s 0 None = Some (naive y m d h mi s).
Proof. intros Hd Ht. unfold make. by rewrite Hd, Ht. Qed.

Lemma make_inv y m d t :
  make y m d 0 0 0 0 None = Some t →
  t = at_midnight y m d ∧ _check_date_fields y m d = true.
Proof.
  unfold make. destruct (_check_date_fields y m d); [|done].
  cbn. by intros [= <-].
Qed.

Lemma pad2_month_listed m : 1 ≤ m ≤ 12 → (Str.pad2 m, m) ∈ month_texts.
Proof.
  intros Hm. apply (bool_decide_eq_true_1 _).
  apply (range_check month_listed 1 m 12); [by vm_compute|lia].
Qed.

Lemma pad2_day_listed d : 1 ≤ d ≤ 31 → (Str.pad2 d, d) ∈ day_texts.
Proof.
  intros Hd. apply (bool_decide_eq_true_1 _).
  apply (range_check day_listed 1 d 31); [by vm_compute|lia].
Qed.

Lemma parse_date_value v w t :
  parsed v = Some t → parse_date v w = (Ok (Some t), w).
Proof. intros H. by rewrite parse_date_spec, H. Qed.

Lemma parse_date_never_raises v w :
  ∃ r w', parse_date v w = (Ok r, w') ∧ only_logged w w'.
Proof.
  rewrite parse_date_spec. eexists _, _. split; [done|].
  destruct (parsed v); [done|]. by destruct (truthy v).
Qed.




(** ** Further properties of the rule engine *)

(** The classifier on a reason in normal form. *)
Lemma classify_normal_form (s : string) (w : World) :
  let n := Str.strip (Str.lower s) in
  (classify_ambiguous_denial (PyStr n) w).1
  = Ok (negb (String.eqb n "")
        && (existsb (λ keyword, Str.contains keyword n) heuristic_keywords
            || default false (ambiguous_retryable !! n))).
Proof.
  intros n. unfold classify_ambiguous_denial. rewrite truthy_PyStr.
  destruct (String.eqb n "") eqn:En; [reflexivity|]. cbn [negb andb].
  unfold ambiguous_fallback, bind, lift, py_lower.
  subst n. rewrite normal_form_idem.
  by destruct (existsb _ heuristic_keywords).
Qed.

(** Rule 4 on a text reason: the verdict is the one of its normal form. *)
Lemma denial_reason_rule_text (c : Claim) (s : string) (w : World) :
  denial_reason c = PyStr s →
  (denial_reason_rule c w).1
  = Ok (text_verdict (self w) (Str.strip (Str.lower s))).
Proof.
  intros Hs. unfold denial_reason_rule, normalize_denial_reason, text_verdict.
  rewrite Hs, truthy_PyStr.
  destruct s as [|a s'].
  { reflexivity. }
  change (negb (negb (String.eqb (String a s') ""))) with false.
  cbn iota. unfold bind at 1. unfold bind at 1. unfold lift, py_lower, ret at 1.
  set (n := Str.strip (Str.lower (String a s'))).
  pose proof (classify_normal_form (String a s') w) as Hc. cbn zeta in Hc.
  fold n in Hc. rewrite truthy_PyStr.
  destruct (String.eqb n "") eqn:En.
  - cbn [negb]. unfold bind.
    destruct (classify_ambiguous_denial (PyStr n) w) as [o w1].
    cbn [fst] in Hc. subst o. reflexivity.
  - cbn [negb]. unfold bind at 1, get_self. cbn [py_in_set py_str].
    destruct (bool_decide (n ∈ retryable_reasons (self w))); [reflexivity|].
    destruct (bool_decide (n ∈ non_retryable_reasons (self w))); [reflexivity|].
    unfold bind.
    destruct (classify_ambiguous_denial (PyStr n) w) as [o w1].
    cbn [fst] in Hc. subst o. cbn [negb andb].
    by destruct (existsb _ heuristic_keywords || _).
Qed.
